(** * fast_alpr.alpr: the ALPR recognition pipeline and its overlay

    A shallow embedding of [ALPR.predict] and [ALPR.draw_predictions]
    (src/fast_alpr/alpr.py).  The frame is a mutable ndarray living in a
    store; the detector and the OCR model are capabilities that may raise;
    every call that crosses the boundary of the class (detector, OCR, cv2)
    is recorded in a ghost trace. *)

From Stdlib Require Import ZArith QArith Qround Lqa String Ascii List Floats DecimalString.
From stdpp Require Import gmap strings list.

Local Open Scope string_scope.
Local Open Scope list_scope.
Local Open Scope Z_scope.

Set Warnings "-inexact-float".

(** ** Python [str] operations used by the pipeline *)
Module PyStr.

(** [s.startswith(p)] *)
Fixpoint startswith (p s : string) : bool :=
  match p, s with
  | EmptyString, _ => true
  | String a p', String b s' => if Ascii.eqb a b then startswith p' s' else false
  | String _ _, EmptyString => false
  end.

(** [old in s] for a non-empty [old]; the empty string is in every string. *)
Fixpoint contains (old s : string) : bool :=
  startswith old s ||
  match s with
  | EmptyString => false
  | String _ s' => contains old s'
  end.

(** Scan of [str.replace] for a non-empty [old]: [skip] counts the
    characters of a match that are still to be dropped. *)
Fixpoint replace_scan (old new : string) (skip : nat) (s : string) : string :=
  match s with
  | EmptyString => EmptyString
  | String c s' =>
      match skip with
      | S k => replace_scan old new k s'
      | O =>
          if startswith old s
          then new +:+ replace_scan old new (Nat.pred (String.length old)) s'
          else String c (replace_scan old new O s')
      end
  end.

(** [str.replace] with an empty [old] puts [new] before every character
    and at the end. *)
Fixpoint intersperse (new s : string) : string :=
  match s with
  | EmptyString => new
  | String c s' => new +:+ String c (intersperse new s')
  end.

(** [s.replace(old, new)] *)
Definition replace (s old new : string) : string :=
  match old with
  | EmptyString => intersperse new s
  | String _ _ => replace_scan old new O s
  end.

(** Deleting one character everywhere, as a reference for [replace]. *)
Fixpoint remove_char (c : ascii) (s : string) : string :=
  match s with
  | EmptyString => EmptyString
  | String a s' => if Ascii.eqb a c then remove_char c s' else String a (remove_char c s')
  end.

(** Truthiness of a [str]. *)
Definition truthy (s : string) : bool :=
  match s with EmptyString => false | String _ _ => true end.

End PyStr.

(** ** Numbers: what [np.mean], [* 100] and the [:.2f] format need *)

(** The confidences are "numeric values"; the pipeline only hands them to
    [np.mean], multiplies the mean by 100 and formats it. *)
Class Numeric (num : Type) := {
  np_mean : list num -> num;
  times_100 : num -> num;
  format_2f : num -> string
}.

Module Fmt.

(** Nearest integer to [n / d], ties to the even one ([0 <= n], [0 < d]). *)
Definition round_half_even (n : Z) (d : Z) : Z :=
  let fl := n / d in
  let r := n mod d in
  match 2 * r ?= d with
  | Lt => fl
  | Gt => fl + 1
  | Eq => if Z.even fl then fl else fl + 1
  end.

Definition digits (n : Z) : string := NilZero.string_of_uint (N.to_uint (Z.to_N n)).

(** Fixed-point rendering of the non-negative rational [n / d] with two
    decimals, with the sign given apart (a float keeps the sign of a
    negative value that rounds to zero). *)
Definition fixed2 (neg : bool) (n d : Z) : string :=
  let h := round_half_even (100 * n) d in
  let frac := h mod 100 in
  (if neg then "-" else "") +:+ digits (h / 100) +:+ "." +:+
  (if frac <? 10 then "0" else "") +:+ digits frac.

End Fmt.

(** Exact rationals. *)
Module Exact.

Definition sum (l : list Q) : Q := fold_left Qplus l (0 # 1)%Q.

Definition mean (l : list Q) : Q := (sum l / inject_Z (Z.of_nat (length l)))%Q.

Definition format (q : Q) : string :=
  Fmt.fixed2 (Qnum q <? 0) (Z.abs (Qnum q)) (Zpos (Qden q)).

#[global] Instance numeric : Numeric Q :=
  {| np_mean := mean; times_100 := fun q => (q * inject_Z 100)%Q; format_2f := format |}.

End Exact.

(** IEEE 754 binary64, the arithmetic of Python floats. *)
Module Binary64.

Local Open Scope float_scope.

(** NumPy's pairwise summation of a contiguous array, by case on its
    length [n]: a plain loop under 8 elements, eight running sums up to
    128, and a split in two halves above. *)
Fixpoint sum_loop (res : float) (l : list float) : float :=
  match l with
  | [] => res
  | x :: l' => sum_loop (res + x) l'
  end.

Fixpoint lanes_loop (fuel : nat) (r : list float) (l : list float) : list float * list float :=
  match fuel with
  | O => (r, l)
  | S fuel' =>
      if (8 <=? length l)%nat
      then lanes_loop fuel' (zip_with PrimFloat.add r (take 8 l)) (drop 8 l)
      else (r, l)
  end.

Definition lanes_total (r : list float) : float :=
  let r_ i := nth i r 0 in
  ((r_ 0%nat + r_ 1%nat) + (r_ 2%nat + r_ 3%nat)) +
  ((r_ 4%nat + r_ 5%nat) + (r_ 6%nat + r_ 7%nat)).

Definition block_sum (l : list float) : float :=
  let '(r, rest) := lanes_loop (length l) (take 8 l) (drop 8 l) in
  sum_loop (lanes_total r) rest.

Fixpoint pairwise_sum (fuel : nat) (l : list float) : float :=
  let n := length l in
  if (n <? 8)%nat then sum_loop 0 l
  else if (n <=? 128)%nat then block_sum l
  else
    match fuel with
    | O => block_sum l
    | S fuel' =>
        let n2 := (n / 2 - (n / 2) mod 8)%nat in
        pairwise_sum fuel' (take n2 l) + pairwise_sum fuel' (drop n2 l)
    end.

Definition of_nat (n : nat) : float := PrimFloat.of_uint63 (Uint63.of_Z (Z.of_nat n)).

(** [np.mean]: the sum, started at the identity of [add], over the count. *)
Definition mean (l : list float) : float :=
  (0 + pairwise_sum (length l) l) / of_nat (length l).

(** [format(x, ".2f")]: the exact value of the float, correctly rounded. *)
Definition format (x : float) : string :=
  match Prim2SF x with
  | S754_zero s => Fmt.fixed2 s 0 1
  | S754_infinity s => if s then "-inf" else "inf"
  | S754_nan => "nan"
  | S754_finite s m e =>
      if (0 <=? e)%Z then Fmt.fixed2 s (Zpos m * 2 ^ e) 1
      else Fmt.fixed2 s (Zpos m) (2 ^ (- e))
  end.

#[global] Instance numeric : Numeric float :=
  {| np_mean := mean; times_100 := fun x => x * 100; format_2f := format |}.

End Binary64.

(** ** Frames and the library calls made on them *)

(** A pixel in BGR order; a frame is an ndarray of shape (H, W, 3), kept as
    its rows.  A crop is an ndarray too. *)
Definition Pixel : Type := Z * Z * Z.
Definition Frame : Type := list (list Pixel).

Module Np.

(** How a slice bound is adjusted to a sequence of length [n]: a negative
    bound counts from the end, and every bound is brought into [0, n]. *)
Definition adjust (n i : Z) : Z :=
  if i <? 0 then Z.max (i + n) 0 else Z.min i n.

(** [l[start:stop]] *)
Definition slice {A} (l : list A) (start stop : Z) : list A :=
  let n := Z.of_nat (length l) in
  let lo := adjust n start in
  let hi := adjust n stop in
  take (Z.to_nat (hi - lo)) (drop (Z.to_nat lo) l).

(** [frame[y1:y2, x1:x2]] *)
Definition getitem (frame : Frame) (y1 y2 x1 x2 : Z) : Frame :=
  map (fun row => slice row x1 x2) (slice frame y1 y2).

(** Number of pixels of an array. *)
Definition size (a : Frame) : nat := length (concat a).

(** [a[i, j]], when there is such a pixel. *)
Definition pixel (a : Frame) (i j : nat) : option Pixel :=
  match a !! i with
  | Some row => row !! j
  | None => None
  end.

End Np.

Inductive LineType := LINE_8 | LINE_AA.
Inductive Font := FONT_HERSHEY_SIMPLEX.

(** The two cv2 drawing calls of the overlay, with the arguments the source
    passes; [cv2.rectangle] is called without a line type. *)
Inductive DrawCall :=
| rectangle (pt1 pt2 : Z * Z) (color : Z * Z * Z) (thickness : Z)
| putText (text : string) (org : Z * Z) (fontFace : Font) (fontScale : Q)
          (color : Z * Z * Z) (thickness : Z) (lineType : LineType).

(** Modelled from the spec: the data classes of fast_alpr/base.py and of the
    detector package (BoundingBox, the detection result, OcrResult), which
    are not part of the sources at hand.  A bounding box is four integers; a
    detection owns one box and an optional score; an OCR result has an
    optional text, a sequence of confidences and an optional padding
    symbol. *)
Record BoundingBox := { x1 : Z; y1 : Z; x2 : Z; y2 : Z }.
Record Detection := { bounding_box : BoundingBox; confidence : option Q }.
Record OcrResult (num : Type) := {
  text : option string;
  confidences : list num;
  padding_symbol : option string
}.
Arguments text {num} _.
Arguments confidences {num} _.
Arguments padding_symbol {num} _.

(** Python truthiness and [or] on the optional fields. *)
Module Py.

Definition truthy_str (s : option string) : bool :=
  match s with Some s => PyStr.truthy s | None => false end.

Definition truthy_seq {A} (l : list A) : bool :=
  match l with [] => false | _ :: _ => true end.

(** [s or ""] *)
Definition or_empty (s : option string) : string :=
  match s with Some s => s | None => "" end.

(** The text of a result whose text is not [None]. *)
Definition str (s : option string) : string :=
  match s with Some s => s | None => "" end.

End Py.

(** Objects are referred to by their address in the store. *)
Definition loc := positive.

(** What crosses the boundary of the class, in order. *)
Inductive Event :=
| EvDetect (frame : Frame)
| EvOcr (crop : Frame)
| EvDraw (call : DrawCall).

Record World := { store : gmap loc Frame; trace : list Event }.

Declare Scope alpr_scope.
Delimit Scope alpr_scope with alpr.

Section Pipeline.

Context {num : Type} `{Numeric num} {Exn : Type}.

(** [self.detector.predict] and [self.ocr.predict]: each reads the array
    it is given and returns, or raises. *)
Variable detector_predict : Frame -> Exn + list Detection.
Variable ocr_predict : Frame -> Exn + option (OcrResult num).
(** What a cv2 drawing call does to the pixels of the image it is given. *)
Variable cv2_draw : DrawCall -> Frame -> Frame.

(** Computations: they may raise, and they act on the store and extend the
    trace; what was done before an exception stays done. *)
Definition M (A : Type) : Type := World -> (Exn + A) * World.

Definition ret {A} (a : A) : M A := fun w => (inr a, w).

Definition bind {A B} (m : M A) (k : A -> M B) : M B :=
  fun w =>
    match m w with
    | (inl e, w') => (inl e, w')
    | (inr a, w') => k a w'
    end.

Notation "x <- m ;; k" := (bind m (fun x => k))
  (at level 100, m at next level, right associativity) : alpr_scope.
Notation "m ;; k" := (bind m (fun _ => k))
  (at level 100, right associativity) : alpr_scope.
Local Open Scope alpr_scope.

Definition log (ev : Event) (w : World) : World :=
  {| store := store w; trace := trace w ++ [ev] |}.

Definition call_detector (frame : loc) : M (list Detection) :=
  fun w => let f := store w !!! frame in (detector_predict f, log (EvDetect f) w).

Definition call_ocr (crop : Frame) : M (option (OcrResult num)) :=
  fun w => (ocr_predict crop, log (EvOcr crop) w).

(** A slice is a view of the frame; it is read by the OCR call that
    follows at once, so it is taken as the pixels the frame has then. *)
Definition getitem (frame : loc) (y1 y2 x1 x2 : Z) : M Frame :=
  fun w => (inr (Np.getitem (store w !!! frame) y1 y2 x1 x2), w).

(** A cv2 drawing call writes into the array it is given. *)
Definition cv2 (call : DrawCall) (img : loc) : M unit :=
  fun w => (inr tt, {| store := alter (cv2_draw call) img (store w);
                       trace := trace w ++ [EvDraw call] |}).

(** [for a in l: s = body(s, a)], the loop-carried value being [s]. *)
Fixpoint for_each {A S} (body : S -> A -> M S) (l : list A) (s : S) : M S :=
  match l with
  | [] => ret s
  | a :: l' => s' <- body s a ;; for_each body l' s'
  end.

(** Body of the loop of [ALPR.predict]. *)
Definition predict_step (frame : loc) (recognized_plates : list string)
    (detection : Detection) : M (list string) :=
  let bbox := bounding_box detection in
  let x1 := x1 bbox in let y1 := y1 bbox in
  let x2 := x2 bbox in let y2 := y2 bbox in
  cropped_plate <- getitem frame y1 y2 x1 x2 ;;
  ocr_result <- call_ocr cropped_plate ;;
  match ocr_result with
  | None => ret recognized_plates
  | Some ocr_result =>
      if negb (Py.truthy_str (text ocr_result))
         || negb (Py.truthy_seq (confidences ocr_result))
      then ret recognized_plates
      else
        let plate_text :=
          PyStr.replace (Py.str (text ocr_result))
                        (Py.or_empty (padding_symbol ocr_result)) "" in
        ret (recognized_plates ++ [plate_text])
  end.

(** [ALPR.predict] *)
Definition predict (frame : loc) : M (list string) :=
  plate_detections <- call_detector frame ;;
  for_each (predict_step frame) plate_detections [].

(** Body of the loop of [ALPR.draw_predictions]. *)
Definition draw_step (frame : loc) (_ : unit) (detection : Detection) : M unit :=
  let bbox := bounding_box detection in
  let x1 := x1 bbox in let y1 := y1 bbox in
  let x2 := x2 bbox in let y2 := y2 bbox in
  cv2 (rectangle (x1, y1) (x2, y2) (36, 255, 12) 2) frame ;;
  cropped_plate <- getitem frame y1 y2 x1 x2 ;;
  ocr_result <- call_ocr cropped_plate ;;
  match ocr_result with
  | None => ret tt
  | Some ocr_result =>
      if negb (Py.truthy_str (text ocr_result))
         || negb (Py.truthy_seq (confidences ocr_result))
      then ret tt
      else
        let plate_text :=
          PyStr.replace (Py.str (text ocr_result))
                        (Py.or_empty (padding_symbol ocr_result)) "" in
        let avg_confidence := np_mean (confidences ocr_result) in
        let display_text :=
          plate_text +:+ " " +:+ format_2f (times_100 avg_confidence) +:+ "%" in
        let font_scale := (5 # 4)%Q in
        cv2 (putText display_text (x1, y1 - 10) FONT_HERSHEY_SIMPLEX font_scale
                     (0, 0, 0) 6 LINE_AA) frame ;;
        cv2 (putText display_text (x1, y1 - 10) FONT_HERSHEY_SIMPLEX font_scale
                     (255, 255, 255) 2 LINE_AA) frame
  end.

(** [ALPR.draw_predictions] *)
Definition draw_predictions (frame : loc) : M loc :=
  plate_detections <- call_detector frame ;;
  for_each (draw_step frame) plate_detections tt ;;
  ret frame.

End Pipeline.

(** ** Vocabulary of the properties *)

(** The crop of a detection in a frame with pixels [f]. *)
Definition crop_of (f : Frame) (d : Detection) : Frame :=
  let bbox := bounding_box d in
  Np.getitem f (y1 bbox) (y2 bbox) (x1 bbox) (x2 bbox).

(** The rectangle the overlay draws for a detection. *)
Definition box_call (d : Detection) : DrawCall :=
  let bbox := bounding_box d in
  rectangle (x1 bbox, y1 bbox) (x2 bbox, y2 bbox) (36, 255, 12) 2.

(** An OCR result is usable when it is present with a non-empty text and a
    non-empty sequence of confidences. *)
Definition usable {num} (r : OcrResult num) : bool :=
  Py.truthy_str (text r) && Py.truthy_seq (confidences r).

Definition successful {num} (o : option (OcrResult num)) : bool :=
  match o with Some r => usable r | None => false end.

Fixpoint survivors {num} (results : list (option (OcrResult num))) : list (OcrResult num) :=
  match results with
  | [] => []
  | Some r :: rest => if usable r then r :: survivors rest else survivors rest
  | None :: rest => survivors rest
  end.

(** The plate text of a usable result. *)
Definition plate_text_of {num} (r : OcrResult num) : string :=
  PyStr.replace (Py.str (text r)) (Py.or_empty (padding_symbol r)) "".

(** The string the overlay shows for a usable result. *)
Definition display_text_of {num} `{Numeric num} (r : OcrResult num) : string :=
  plate_text_of r +:+ " " +:+ format_2f (times_100 (np_mean (confidences r))) +:+ "%".

(** Parts of a trace. *)
Definition draws_of (t : list Event) : list DrawCall :=
  omap (fun ev => match ev with EvDraw c => Some c | _ => None end) t.

Definition ocr_inputs (t : list Event) : list Frame :=
  omap (fun ev => match ev with EvOcr c => Some c | _ => None end) t.

Definition is_rectangle (c : DrawCall) : bool :=
  match c with rectangle _ _ _ _ => true | putText _ _ _ _ _ _ _ => false end.

Definition rectangles_of (t : list Event) : list DrawCall :=
  List.filter is_rectangle (draws_of t).

(** The texts put on the frame, read off the white (foreground) rendering. *)
Definition overlay_texts (t : list Event) : list string :=
  omap (fun c => match c with
                 | putText s _ _ _ color _ _ =>
                     if decide (color = (255, 255, 255)) then Some s else None
                 | rectangle _ _ _ _ => None
                 end) (draws_of t).

(** The pixels of a frame after a sequence of drawing calls on it. *)
Definition replay (cv2_draw : DrawCall -> Frame -> Frame)
    (calls : list DrawCall) (f : Frame) : Frame :=
  fold_left (fun f c => cv2_draw c f) calls f.

(** The first exception of a sequence of outcomes, or all their values. *)
Fixpoint collect {E A} (l : list (E + A)) : E + list A :=
  match l with
  | [] => inr []
  | inl e :: _ => inl e
  | inr a :: l' => match collect l' with inl e => inl e | inr v => inr (a :: v) end
  end.

(** The two renderings of the text of a usable result: black and thick
    first, white and thin on top, both at [(x1, y1 - 10)]. *)
Definition label_calls {num} `{Numeric num} (d : Detection) (r : OcrResult num)
    : list DrawCall :=
  let bbox := bounding_box d in
  [ putText (display_text_of r) (x1 bbox, y1 bbox - 10) FONT_HERSHEY_SIMPLEX (5 # 4)%Q
            (0, 0, 0) 6 LINE_AA;
    putText (display_text_of r) (x1 bbox, y1 bbox - 10) FONT_HERSHEY_SIMPLEX (5 # 4)%Q
            (255, 255, 255) 2 LINE_AA ].

Definition label_events {num} `{Numeric num} (d : Detection) (o : option (OcrResult num))
    : list Event :=
  match o with
  | Some r => if usable r then map EvDraw (label_calls d r) else []
  | None => []
  end.

(** The world once the events [evs] have happened: the drawing calls among
    them were written into the object at [frame], nothing else moved. *)
Definition after (cv2_draw : DrawCall -> Frame -> Frame)
    (frame : loc) (evs : list Event) (w : World) : World :=
  {| store := alter (replay cv2_draw (draws_of evs)) frame (store w);
     trace := trace w ++ evs |}.


(** The outcome and the events of the loop of the overlay over [dets], as a
    function of the pixels [f] the frame has when the loop starts. *)
Fixpoint overlay_events {num} `{Numeric num} {Exn}
    (ocr_predict : Frame -> Exn + option (OcrResult num))
    (cv2_draw : DrawCall -> Frame -> Frame)
    (f : Frame) (dets : list Detection) : (Exn + unit) * list Event :=
  match dets with
  | [] => (inr tt, [])
  | d :: dets' =>
      let crop := crop_of (cv2_draw (box_call d) f) d in
      match ocr_predict crop with
      | inl e => (inl e, [EvDraw (box_call d); EvOcr crop])
      | inr o =>
          let evs := EvDraw (box_call d) :: EvOcr crop :: label_events d o in
          let run := overlay_events ocr_predict cv2_draw
                       (replay cv2_draw (draws_of evs) f) dets' in
          (fst run, evs ++ snd run)
      end
  end.


(** The drawing calls of the overlay for detections [dets] whose OCR results
    are [results]: for each detection its rectangle, then the two renderings
    of its text when its result is usable. *)
Fixpoint annotations {num} `{Numeric num}
    (dets : list Detection) (results : list (option (OcrResult num))) : list DrawCall :=
  match dets, results with
  | d :: dets', o :: results' =>
      (box_call d :: draws_of (label_events d o)) ++ annotations dets' results'
  | _, _ => []
  end.

(** ** Construction of the pipeline: [ALPR.__init__] *)

(** A capability object, as far as the class uses it: its [predict] method
    and its truth value ([bool(obj)], which decides [obj or default]). *)
Record Capability (Exn In Out : Type) := {
  cap_predict : In -> Exn + Out;
  cap_truth : bool
}.
Arguments cap_predict {Exn In Out} _ _.
Arguments cap_truth {Exn In Out} _.

Inductive Device := cuda | cpu | auto.

(** The keyword arguments [__init__] passes to the two default capabilities
    (fast_alpr/default_detector.py and fast_alpr/default_ocr.py, which are
    taken as parameters below). *)
Module DefaultDetector.

Record kwargs (Providers SessionOptions : Type) := {
  model_name : string;
  conf_thresh : Q;
  providers : option Providers;
  sess_options : option SessionOptions
}.
Arguments model_name {_ _} _.
Arguments conf_thresh {_ _} _.
Arguments providers {_ _} _.
Arguments sess_options {_ _} _.

End DefaultDetector.

Module DefaultOCR.

Record kwargs (Providers SessionOptions : Type) := {
  hub_ocr_model : option string;
  device : Device;
  providers : option Providers;
  sess_options : option SessionOptions;
  model_path : option string;
  config_path : option string;
  force_download : bool
}.
Arguments hub_ocr_model {_ _} _.
Arguments device {_ _} _.
Arguments providers {_ _} _.
Arguments sess_options {_ _} _.
Arguments model_path {_ _} _.
Arguments config_path {_ _} _.
Arguments force_download {_ _} _.

End DefaultOCR.

Module Alpr.

Section Init.

Context {num Exn Providers SessionOptions : Type}.

Definition Detector : Type := Capability Exn Frame (list Detection).
Definition Ocr : Type := Capability Exn Frame (option (OcrResult num)).

(** The parameters of [__init__]. *)
Record Args := {
  detector : option Detector;
  ocr : option Ocr;
  detector_model : string;
  detector_conf_thresh : Q;
  detector_providers : option Providers;
  detector_sess_options : option SessionOptions;
  ocr_hub_ocr_model : option string;
  ocr_device : Device;
  ocr_providers : option Providers;
  ocr_sess_options : option SessionOptions;
  ocr_model_path : option string;
  ocr_config_path : option string;
  ocr_force_download : bool
}.

(** The values the parameters take when they are not given. *)
Definition defaults : Args :=
  {| detector := None;
     ocr := None;
     detector_model := "yolo-v9-t-384-license-plate-end2end";
     detector_conf_thresh := (4 # 10)%Q;
     detector_providers := None;
     detector_sess_options := None;
     ocr_hub_ocr_model := Some "european-plates-mobile-vit-v2-model";
     ocr_device := auto;
     ocr_providers := None;
     ocr_sess_options := None;
     ocr_model_path := None;
     ocr_config_path := None;
     ocr_force_download := false |}.

(** The instance: [self.detector] and [self.ocr]. *)
Record Self := { self_detector : Detector; self_ocr : Ocr }.

(** The constructors of the default capabilities: each returns an object
    or raises. *)
Variable DefaultDetector_new : DefaultDetector.kwargs Providers SessionOptions -> Exn + Detector.
Variable DefaultOCR_new : DefaultOCR.kwargs Providers SessionOptions -> Exn + Ocr.

(** The constructor calls made, in order. *)
Inductive Built :=
| NewDetector (k : DefaultDetector.kwargs Providers SessionOptions)
| NewOCR (k : DefaultOCR.kwargs Providers SessionOptions).

Definition B (A : Type) : Type := list Built -> (Exn + A) * list Built.

(** [x or make()]: [x] when it is an object that is true, and what
    [make] gives otherwise; [make] is not run in the first case. *)
Definition or_make {A : Type} (truth : A -> bool) (x : option A) (make : B A) : B A :=
  fun t =>
    match x with
    | Some c => if truth c then (inr c, t) else make t
    | None => make t
    end.

Definition new_detector (k : DefaultDetector.kwargs Providers SessionOptions) : B Detector :=
  fun t => (DefaultDetector_new k, t ++ [NewDetector k]).

Definition new_ocr (k : DefaultOCR.kwargs Providers SessionOptions) : B Ocr :=
  fun t => (DefaultOCR_new k, t ++ [NewOCR k]).

(** The keyword arguments of the two constructor calls. *)
Definition detector_kwargs (a : Args) : DefaultDetector.kwargs Providers SessionOptions :=
  {| DefaultDetector.model_name := detector_model a;
     DefaultDetector.conf_thresh := detector_conf_thresh a;
     DefaultDetector.providers := detector_providers a;
     DefaultDetector.sess_options := detector_sess_options a |}.

Definition ocr_kwargs (a : Args) : DefaultOCR.kwargs Providers SessionOptions :=
  {| DefaultOCR.hub_ocr_model := ocr_hub_ocr_model a;
     DefaultOCR.device := ocr_device a;
     DefaultOCR.providers := ocr_providers a;
     DefaultOCR.sess_options := ocr_sess_options a;
     DefaultOCR.model_path := ocr_model_path a;
     DefaultOCR.config_path := ocr_config_path a;
     DefaultOCR.force_download := ocr_force_download a |}.

(** [ALPR.__init__] *)
Definition init (a : Args) : B Self :=
  fun t =>
    match or_make cap_truth (detector a) (new_detector (detector_kwargs a)) t with
    | (inl e, t1) => (inl e, t1)
    | (inr self_detector, t1) =>
        match or_make cap_truth (ocr a) (new_ocr (ocr_kwargs a)) t1 with
        | (inl e, t2) => (inl e, t2)
        | (inr self_ocr, t2) =>
            (inr {| self_detector := self_detector; self_ocr := self_ocr |}, t2)
        end
    end.

(** An argument that is [None], or an object that is false: the default
    is built in its place. *)
Definition absent {In Out} (x : option (Capability Exn In Out)) : bool :=
  match x with
  | Some c => negb (cap_truth c)
  | None => true
  end.

(** The two methods, on an instance. *)
Definition predict_of (self : Self) : loc -> World -> (Exn + list string) * World :=
  predict (cap_predict (self_detector self)) (cap_predict (self_ocr self)).

Definition draw_predictions_of `{Numeric num}
    (cv2_draw : DrawCall -> Frame -> Frame) (self : Self)
    : loc -> World -> (Exn + loc) * World :=
  draw_predictions (cap_predict (self_detector self)) (cap_predict (self_ocr self)) cv2_draw.

End Init.

End Alpr.

(** ** A rasteriser to run the overlay on concrete frames

    It stands for cv2 in the runs below: an outline covers the pixels within
    half its thickness of the sides of the rectangle, a text covers the box
    of its glyphs above the baseline at [org]; both are clipped to the
    frame. *)
Module Canvas.

Definition paint (inside : Z -> Z -> bool) (color : Pixel) (f : Frame) : Frame :=
  imap (fun y row =>
          imap (fun x p => if inside (Z.of_nat x) (Z.of_nat y) then color else p) row) f.

Definition on_outline (pt1 pt2 : Z * Z) (thickness : Z) (x y : Z) : bool :=
  let r := thickness / 2 in
  let xmin := Z.min (fst pt1) (fst pt2) in
  let xmax := Z.max (fst pt1) (fst pt2) in
  let ymin := Z.min (snd pt1) (snd pt2) in
  let ymax := Z.max (snd pt1) (snd pt2) in
  (xmin - r <=? x) && (x <=? xmax + r) && (ymin - r <=? y) && (y <=? ymax + r)
  && negb ((xmin + r <? x) && (x <? xmax - r) && (ymin + r <? y) && (y <? ymax - r)).

Definition in_text_box (s : string) (org : Z * Z) (fontScale : Q) (x y : Z) : bool :=
  let h := Qceiling (22 * fontScale) in
  let w := Qceiling (20 * fontScale) * Z.of_nat (String.length s) in
  (fst org <=? x) && (x <? fst org + w) && (snd org - h <? y) && (y <=? snd org).

Definition draw (c : DrawCall) (f : Frame) : Frame :=
  match c with
  | rectangle pt1 pt2 color thickness => paint (on_outline pt1 pt2 thickness) color f
  | putText s org _ fontScale color _ _ => paint (in_text_box s org fontScale) color f
  end.

End Canvas.

(** ** Concrete frames, detectors and OCR models *)
Module Demo.

Definition black : Pixel := (0, 0, 0).

Definition blank (h w : nat) : Frame := replicate h (replicate w black).

(** A store with one frame, at address 1, and an empty trace. *)
Definition frame_ref : loc := 1%positive.
Definition world_of (f : Frame) : World :=
  {| store := {[ frame_ref := f ]}; trace := [] |}.

Definition detection (a b c d : Z) : Detection :=
  {| bounding_box := {| x1 := a; y1 := b; x2 := c; y2 := d |}; confidence := None |}.

(** A detector that finds the given detections in every frame, and one
    that raises. *)
Definition finds (dets : list Detection) : Frame -> string + list Detection :=
  fun _ => inr dets.
Definition detector_down : Frame -> string + list Detection :=
  fun _ => inl "detector backend failure".

(** An OCR model that reads the same result from every crop. *)
Definition reads {num} (o : option (OcrResult num)) : Frame -> string + option (OcrResult num) :=
  fun _ => inr o.

(** An OCR model that reads its plate from an untouched (black) plate
    border and nothing from a crop whose first pixel is not black. *)
Definition reads_clean_crop {num} (o : option (OcrResult num))
    : Frame -> string + option (OcrResult num) :=
  fun crop =>
    match crop with
    | (p :: _) :: _ => if decide (p = black) then inr o else inr None
    | _ => inr None
    end.

(** An OCR model that raises on a crop with no pixel. *)
Definition raises_on_empty {num} (o : option (OcrResult num))
    : Frame -> string + option (OcrResult num) :=
  fun crop => if (Np.size crop =? 0)%nat then inl "empty input" else inr o.

Definition ab12 : OcrResult Q :=
  {| text := Some "AB12"; confidences := [(99 # 100); (98 # 100); (97 # 100); (96 # 100)]%Q;
     padding_symbol := None |}.
Definition ab_12 : OcrResult Q :=
  {| text := Some "AB_12";
     confidences := [(99 # 100); (98 # 100); (50 # 100); (97 # 100); (96 # 100)]%Q;
     padding_symbol := Some "_" |}.
Definition no_text : OcrResult Q :=
  {| text := Some ""; confidences := [(1 # 2)]%Q; padding_symbol := None |}.
Definition no_confidences : OcrResult Q :=
  {| text := Some "AB12"; confidences := []; padding_symbol := None |}.
Definition xy9 : OcrResult Q :=
  {| text := Some "_XY__9";
     confidences := [(1 # 2); (9 # 10); (8 # 10); (1 # 2); (1 # 2); (7 # 10)]%Q;
     padding_symbol := Some "_" |}.

(** An OCR model that tells its plates by the height of the crop, and
    reads nothing from a crop of another height. *)
Definition reads_by_height {num} (table : list (nat * option (OcrResult num)))
    : Frame -> string + option (OcrResult num) :=
  fun crop =>
    match List.find (fun row => (fst row =? length crop)%nat) table with
    | Some row => inr (snd row)
    | None => inr None
    end.

(** A street scene: a 60 by 60 frame with three detections, the second of
    them of no width; the plates are 30 and 20 pixels high. *)
Definition street : Frame := blank 60 60.
Definition street_detections : list Detection :=
  [detection 10 10 50 40; detection 5 5 5 9; detection 20 30 60 50].
Definition street_ocr : Frame -> string + option (OcrResult Q) :=
  reads_by_height [(30%nat, Some ab_12); (20%nat, Some xy9); (4%nat, Some no_text)].
Definition street_results : list (option (OcrResult Q)) :=
  [Some ab_12; Some no_text; Some xy9].

Definition blank_plate : OcrResult Q :=
  {| text := Some "___"; confidences := [(1 # 2); (1 # 2); (1 # 2)]%Q;
     padding_symbol := Some "_" |}.
Definition xy9_clean : OcrResult Q :=
  {| text := Some "XY9"; confidences := [(9 # 10); (8 # 10); (7 # 10)]%Q;
     padding_symbol := Some "_" |}.

(** Capability objects around a detector and an OCR, and constructors of
    the defaults: one that gives the street models for any options, one
    that cannot load its model. *)
Definition street_detector : Capability string Frame (list Detection) :=
  {| cap_predict := finds street_detections; cap_truth := true |}.
Definition street_reader : Capability string Frame (option (OcrResult Q)) :=
  {| cap_predict := street_ocr; cap_truth := true |}.
Definition empty_detector : Capability string Frame (list Detection) :=
  {| cap_predict := finds []; cap_truth := false |}.

Definition stock_detector (k : DefaultDetector.kwargs unit unit)
    : string + Capability string Frame (list Detection) :=
  inr street_detector.
Definition stock_ocr (k : DefaultOCR.kwargs unit unit)
    : string + Capability string Frame (option (OcrResult Q)) :=
  inr street_reader.
Definition offline_detector (k : DefaultDetector.kwargs unit unit)
    : string + Capability string Frame (list Detection) :=
  inl ("cannot download " +:+ DefaultDetector.model_name k).
Definition offline_ocr (k : DefaultOCR.kwargs unit unit)
    : string + Capability string Frame (option (OcrResult Q)) :=
  inl "cannot download the OCR model".

Definition injected : @Alpr.Args Q string unit unit :=
  {| Alpr.detector := Some street_detector;
     Alpr.ocr := Some street_reader;
     Alpr.detector_model := "no-such-model";
     Alpr.detector_conf_thresh := (9 # 10)%Q;
     Alpr.detector_providers := None;
     Alpr.detector_sess_options := None;
     Alpr.ocr_hub_ocr_model := None;
     Alpr.ocr_device := cpu;
     Alpr.ocr_providers := None;
     Alpr.ocr_sess_options := None;
     Alpr.ocr_model_path := None;
     Alpr.ocr_config_path := None;
     Alpr.ocr_force_download := true |}.

(** A frame of 6 rows and 8 columns whose pixel at row [y] and column [x]
    is [(x, y, 0)]. *)
Definition grid : Frame :=
  imap (fun y row => imap (fun x _ => (Z.of_nat x, Z.of_nat y, 0)) row) (blank 6 8).

End Demo.

(** * Properties *)

(** ** Strings *)

Lemma append_nil_l (t : string) : "" +:+ t = t.
Proof. reflexivity. Qed.

Lemma replace_empty_old (s : string) : PyStr.replace s "" "" = s.
Proof.
  unfold PyStr.replace. induction s as [|c s IH]; [reflexivity|].
  cbn [PyStr.intersperse]. rewrite append_nil_l. f_equal. exact IH.
Qed.

Lemma replace_one_char (c : ascii) (s : string) :
  PyStr.replace s (String c "") "" = PyStr.remove_char c s.
Proof.
  unfold PyStr.replace. induction s as [|a s IH]; [reflexivity|].
  cbn [PyStr.replace_scan PyStr.startswith PyStr.remove_char String.length Nat.pred].
  rewrite (Ascii.eqb_sym c a).
  destruct (Ascii.eqb a c); [rewrite append_nil_l|]; now rewrite IH.
Qed.

Lemma remove_char_filter (c : ascii) (s : string) :
  list_ascii_of_string (PyStr.remove_char c s)
  = List.filter (fun a => negb (Ascii.eqb a c)) (list_ascii_of_string s).
Proof.
  induction s as [|a s IH]; [reflexivity|].
  cbn [PyStr.remove_char list_ascii_of_string List.filter].
  destruct (Ascii.eqb a c); cbn [negb list_ascii_of_string]; now rewrite IH.
Qed.

Lemma contains_char_cons (c a : ascii) (s : string) :
  PyStr.contains (String c "") (String a s)
  = Ascii.eqb c a || PyStr.contains (String c "") s.
Proof. simpl. destruct (Ascii.eqb c a); reflexivity. Qed.

Lemma remove_char_absent (c : ascii) (s : string) :
  PyStr.contains (String c "") (PyStr.remove_char c s) = false.
Proof.
  induction s as [|a s IH]; [reflexivity|].
  cbn [PyStr.remove_char]. destruct (Ascii.eqb a c) eqn:E; [exact IH|].
  rewrite contains_char_cons, IH, (Ascii.eqb_sym c a), E. reflexivity.
Qed.

Lemma remove_char_fixed (c : ascii) (s : string) :
  PyStr.contains (String c "") s = false -> PyStr.remove_char c s = s.
Proof.
  induction s as [|a s IH]; [reflexivity|].
  rewrite contains_char_cons. intros Hc. apply orb_false_iff in Hc as [Hca Hs].
  cbn [PyStr.remove_char]. rewrite (Ascii.eqb_sym a c), Hca. now rewrite IH.
Qed.

(** ** The store *)

Lemma alter_alter {A} (g h : A -> A) (i : loc) (m : gmap loc A) :
  alter g i (alter h i m) = alter (fun x => g (h x)) i m.
Proof.
  apply map_eq. intros j. destruct (decide (i = j)) as [->|Hne].
  - rewrite !lookup_alter_eq. now destruct (m !! j).
  - now rewrite !lookup_alter_ne.
Qed.

Lemma alter_same {A} (g : A -> A) (i : loc) (m : gmap loc A) :
  (forall x, g x = x) -> alter g i m = m.
Proof. intros Hg. apply alter_id. intros x _. apply Hg. Qed.

Lemma draws_of_app (t u : list Event) : draws_of (t ++ u) = draws_of t ++ draws_of u.
Proof. apply omap_app. Qed.

Lemma ocr_inputs_app (t u : list Event) : ocr_inputs (t ++ u) = ocr_inputs t ++ ocr_inputs u.
Proof. apply omap_app. Qed.

Lemma rectangles_of_app (t u : list Event) :
  rectangles_of (t ++ u) = rectangles_of t ++ rectangles_of u.
Proof. unfold rectangles_of. now rewrite draws_of_app, List.filter_app. Qed.

Lemma overlay_texts_app (t u : list Event) :
  overlay_texts (t ++ u) = overlay_texts t ++ overlay_texts u.
Proof. unfold overlay_texts. now rewrite draws_of_app, omap_app. Qed.

Section Worlds.

Variable cv2_draw : DrawCall -> Frame -> Frame.

Lemma replay_app (a b : list DrawCall) (f : Frame) :
  replay cv2_draw (a ++ b) f = replay cv2_draw b (replay cv2_draw a f).
Proof. unfold replay. apply fold_left_app. Qed.

Lemma after_nil frame w : after cv2_draw frame [] w = w.
Proof.
  unfold after. destruct w as [s t]. cbn. f_equal.
  - now apply alter_same.
  - apply app_nil_r.
Qed.

Lemma after_app frame evs1 evs2 w :
  after cv2_draw frame evs2 (after cv2_draw frame evs1 w)
  = after cv2_draw frame (evs1 ++ evs2) w.
Proof.
  unfold after. cbn. f_equal.
  - rewrite alter_alter. apply alter_ext. intros x _.
    now rewrite draws_of_app, replay_app.
  - now rewrite app_assoc.
Qed.

Lemma after_lookup frame evs w f :
  store w !! frame = Some f ->
  store (after cv2_draw frame evs w) !! frame = Some (replay cv2_draw (draws_of evs) f).
Proof. intros Hf. unfold after. cbn. now rewrite lookup_alter_eq, Hf. Qed.

End Worlds.

Lemma survivors_app {num} (a b : list (option (OcrResult num))) :
  survivors (a ++ b) = survivors a ++ survivors b.
Proof.
  induction a as [|[r|] a IH]; cbn; [reflexivity| |exact IH].
  destruct (usable r); cbn; now rewrite IH.
Qed.

Lemma survivors_cons {num} (o : option (OcrResult num)) (rest : list (option (OcrResult num))) :
  survivors (o :: rest) = survivors [o] ++ survivors rest.
Proof. apply (survivors_app [o] rest). Qed.

Lemma survivors_one {num} (o : option (OcrResult num)) :
  survivors [o] = match o with
                  | Some r => if usable r then [r] else []
                  | None => []
                  end.
Proof. destruct o as [r|]; cbn; [destruct (usable r)|]; reflexivity. Qed.

Lemma survivors_length {num} (results : list (option (OcrResult num))) :
  length (survivors results) = count_occ bool_dec (map successful results) true.
Proof.
  induction results as [|[r|] rest IH]; cbn; [reflexivity| |exact IH].
  destruct (usable r); cbn; now rewrite IH.
Qed.

Lemma survivors_le {num} (results : list (option (OcrResult num))) :
  (length (survivors results) <= length results)%nat.
Proof.
  induction results as [|[r|] rest IH]; cbn; [lia| |lia].
  destruct (usable r); cbn; lia.
Qed.

(** ** Runs of the recognition pipeline *)
Section Recognition.

Context {num : Type} {Exn : Type}.
Variable detector_predict : Frame -> Exn + list Detection.
Variable ocr_predict : Frame -> Exn + option (OcrResult num).

(** One turn of the loop: the crop is sliced off the frame, handed to the
    OCR, and the plate text is appended when the result is usable. *)
Lemma predict_step_run frame acc d w :
  predict_step ocr_predict frame acc d w
  = (match ocr_predict (crop_of (store w !!! frame) d) with
     | inl e => inl e
     | inr o => inr (acc ++ map plate_text_of (survivors [o]))
     end,
     log (EvOcr (crop_of (store w !!! frame) d)) w).
Proof.
  unfold predict_step, bind, getitem, call_ocr, ret, crop_of. cbn.
  destruct (ocr_predict _) as [e|[r|]]; cbn; [reflexivity| |now rewrite app_nil_r].
  unfold usable. destruct (Py.truthy_str (text r)), (Py.truthy_seq (confidences r));
    cbn; now rewrite ?app_nil_r.
Qed.

Lemma predict_loop_store frame dets : forall acc w,
  store (snd (for_each (predict_step ocr_predict frame) dets acc w)) = store w.
Proof.
  induction dets as [|d dets IH]; intros acc w; [reflexivity|].
  cbn [for_each]. unfold bind. rewrite predict_step_run.
  destruct (ocr_predict _) as [e|o]; [reflexivity|].
  now rewrite IH.
Qed.

Lemma predict_loop_outcome frame dets : forall acc w,
  fst (for_each (predict_step ocr_predict frame) dets acc w)
  = match collect (map (fun d => ocr_predict (crop_of (store w !!! frame) d)) dets) with
    | inl e => inl e
    | inr results => inr (acc ++ map plate_text_of (survivors results))
    end.
Proof.
  induction dets as [|d dets IH]; intros acc w.
  - cbn. now rewrite app_nil_r.
  - cbn [for_each map collect]. unfold bind. rewrite predict_step_run.
    destruct (ocr_predict _) as [e|o]; [reflexivity|].
    rewrite IH. cbn [log store].
    destruct (collect _) as [e|results]; [reflexivity|].
    now rewrite (survivors_cons o results), map_app, app_assoc.
Qed.

Lemma predict_loop_run frame dets : forall results acc w,
  Forall2 (fun d o => ocr_predict (crop_of (store w !!! frame) d) = inr o) dets results ->
  for_each (predict_step ocr_predict frame) dets acc w
  = (inr (acc ++ map plate_text_of (survivors results)),
     {| store := store w;
        trace := trace w ++ map EvOcr (map (crop_of (store w !!! frame)) dets) |}).
Proof.
  induction dets as [|d dets IH]; intros results acc w Hres.
  - inversion Hres; subst. cbn. unfold ret. rewrite !app_nil_r. now destruct w.
  - inversion Hres as [|d' o dets' rest Ho Hrest]; subst.
    cbn [for_each]. unfold bind. rewrite predict_step_run, Ho.
    rewrite (IH rest); [|exact Hrest].
    cbn [log store trace map].
    now rewrite (survivors_cons o rest), map_app, !app_assoc, <- (app_assoc (trace w)).
Qed.

Lemma predict_run frame w dets results :
  detector_predict (store w !!! frame) = inr dets ->
  Forall2 (fun d o => ocr_predict (crop_of (store w !!! frame) d) = inr o) dets results ->
  predict detector_predict ocr_predict frame w
  = (inr (map plate_text_of (survivors results)),
     {| store := store w;
        trace := trace w ++ EvDetect (store w !!! frame)
                             :: map EvOcr (map (crop_of (store w !!! frame)) dets) |}).
Proof.
  intros Hdet Hres. unfold predict, bind, call_detector. rewrite Hdet.
  rewrite (predict_loop_run frame dets results); [|exact Hres].
  cbn [log store trace]. now rewrite <- app_assoc.
Qed.

Lemma predict_outcome frame w :
  fst (predict detector_predict ocr_predict frame w)
  = match detector_predict (store w !!! frame) with
    | inl e => inl e
    | inr dets =>
        match collect (map (fun d => ocr_predict (crop_of (store w !!! frame) d)) dets) with
        | inl e => inl e
        | inr results => inr (map plate_text_of (survivors results))
        end
    end.
Proof.
  unfold predict, bind, call_detector.
  destruct (detector_predict _) as [e|dets]; [reflexivity|].
  now rewrite predict_loop_outcome.
Qed.

Lemma predict_store frame w :
  store (snd (predict detector_predict ocr_predict frame w)) = store w.
Proof.
  unfold predict, bind, call_detector.
  destruct (detector_predict _) as [e|dets]; [reflexivity|].
  now rewrite predict_loop_store.
Qed.


End Recognition.

(** ** Runs of the overlay *)
Section Overlay.

Context {num : Type} `{Numeric num} {Exn : Type}.
Variable detector_predict : Frame -> Exn + list Detection.
Variable ocr_predict : Frame -> Exn + option (OcrResult num).
Variable cv2_draw : DrawCall -> Frame -> Frame.


(** One turn of the loop: the rectangle is drawn first, the crop is sliced
    off the frame as it then is, and the two texts follow when the OCR
    result is usable. *)
Lemma draw_step_run frame d w f :
  store w !! frame = Some f ->
  draw_step ocr_predict cv2_draw frame tt d w
  = match ocr_predict (crop_of (cv2_draw (box_call d) f) d) with
    | inl e =>
        (inl e, after cv2_draw frame
                  [EvDraw (box_call d); EvOcr (crop_of (cv2_draw (box_call d) f) d)] w)
    | inr o =>
        (inr tt, after cv2_draw frame
                   (EvDraw (box_call d) :: EvOcr (crop_of (cv2_draw (box_call d) f) d)
                    :: label_events d o) w)
    end.
Proof.
  intros Hf.
  unfold draw_step, bind, cv2, getitem, call_ocr, ret. cbn [store trace log].
  rewrite lookup_total_alter_eq, Hf. cbn [fmap option_fmap option_map default].
  fold (box_call d). fold (crop_of (cv2_draw (box_call d) f) d).
  destruct (ocr_predict _) as [e|[r|]]; unfold after, log; cbn [store trace].
  - now rewrite <- app_assoc.
  - unfold label_events, usable.
    destruct (Py.truthy_str (text r)), (Py.truthy_seq (confidences r));
      cbn [negb orb andb store trace];
      rewrite ?alter_alter, <- ?app_assoc; reflexivity.
  - now rewrite <- app_assoc.
Qed.

Lemma draw_loop_run frame dets : forall w f,
  store w !! frame = Some f ->
  for_each (draw_step ocr_predict cv2_draw frame) dets tt w
  = (fst (overlay_events ocr_predict cv2_draw f dets),
     after cv2_draw frame (snd (overlay_events ocr_predict cv2_draw f dets)) w).
Proof.
  induction dets as [|d dets IH]; intros w f Hf.
  - cbn. unfold ret. now rewrite after_nil.
  - cbn [for_each overlay_events]. unfold bind.
    rewrite (draw_step_run frame d w f Hf).
    destruct (ocr_predict _) as [e|o]; [reflexivity|].
    rewrite (IH _ _ (after_lookup cv2_draw frame _ w f Hf)).
    cbn [fst snd]. now rewrite after_app.
Qed.

Lemma draw_predictions_run frame w f :
  store w !! frame = Some f ->
  draw_predictions detector_predict ocr_predict cv2_draw frame w
  = match detector_predict f with
    | inl e => (inl e, after cv2_draw frame [EvDetect f] w)
    | inr dets =>
        (match fst (overlay_events ocr_predict cv2_draw f dets) with
         | inl e => inl e
         | inr _ => inr frame
         end,
         after cv2_draw frame
           (EvDetect f :: snd (overlay_events ocr_predict cv2_draw f dets)) w)
    end.
Proof.
  intros Hf. unfold draw_predictions, bind, call_detector.
  rewrite (lookup_total_correct _ _ _ Hf).
  assert (Hlog : log (EvDetect f) w = after cv2_draw frame [EvDetect f] w).
  { unfold log, after. cbn. f_equal. symmetry. now apply alter_same. }
  rewrite Hlog.
  destruct (detector_predict f) as [e|dets]; [reflexivity|].
  rewrite (draw_loop_run frame dets _ f).
  - rewrite after_app. cbn [app].
    destruct (fst (overlay_events _ _ _ _)) as [e|[]]; reflexivity.
  - rewrite after_lookup with (f := f); [reflexivity | exact Hf].
Qed.

(** *** What the events of the loop are *)


Lemma rectangles_of_step d crop (o : option (OcrResult num)) :
  rectangles_of (EvDraw (box_call d) :: EvOcr crop :: label_events d o) = [box_call d].
Proof. destruct o as [r|]; cbn; [destruct (usable r)|]; reflexivity. Qed.

Lemma ocr_inputs_step d crop (o : option (OcrResult num)) :
  ocr_inputs (EvDraw (box_call d) :: EvOcr crop :: label_events d o) = [crop].
Proof. destruct o as [r|]; cbn; [destruct (usable r)|]; reflexivity. Qed.

Lemma overlay_texts_step d crop (o : option (OcrResult num)) :
  overlay_texts (EvDraw (box_call d) :: EvOcr crop :: label_events d o)
  = map display_text_of (survivors [o]).
Proof. destruct o as [r|]; cbn; [destruct (usable r)|]; reflexivity. Qed.

Lemma overlay_rectangles_prefix dets : forall f,
  rectangles_of (snd (overlay_events ocr_predict cv2_draw f dets))
    `prefix_of` map box_call dets.
Proof.
  induction dets as [|d dets IH]; intros f; [reflexivity|].
  cbn [overlay_events map].
  destruct (ocr_predict _) as [e|o]; cbn [snd].
  - cbn. apply prefix_cons, prefix_nil.
  - rewrite rectangles_of_app, rectangles_of_step.
    apply prefix_cons, IH.
Qed.

Lemma overlay_complete dets : forall f v,
  fst (overlay_events ocr_predict cv2_draw f dets) = inr v ->
  rectangles_of (snd (overlay_events ocr_predict cv2_draw f dets)) = map box_call dets
  /\ length (ocr_inputs (snd (overlay_events ocr_predict cv2_draw f dets))) = length dets.
Proof.
  induction dets as [|d dets IH]; intros f v; [intros _; split; reflexivity|].
  cbn [overlay_events map].
  destruct (ocr_predict _) as [e|o]; cbn [fst snd]; [discriminate|].
  intros Hv. destruct (IH _ _ Hv) as [Hr Hl].
  rewrite rectangles_of_app, ocr_inputs_app, rectangles_of_step, ocr_inputs_step.
  rewrite Hr, List.length_app, Hl. split; reflexivity.
Qed.


Lemma overlay_texts_results dets : forall f v,
  fst (overlay_events ocr_predict cv2_draw f dets) = inr v ->
  exists results,
    Forall2 (fun crop o => ocr_predict crop = inr o)
            (ocr_inputs (snd (overlay_events ocr_predict cv2_draw f dets))) results
    /\ overlay_texts (snd (overlay_events ocr_predict cv2_draw f dets))
       = map display_text_of (survivors results).
Proof.
  induction dets as [|d dets IH]; intros f v.
  - intros _. exists []. split; [constructor | reflexivity].
  - cbn [overlay_events].
    destruct (ocr_predict _) as [e|o] eqn:Hocr; cbn [fst snd]; [discriminate|].
    intros Hv. destruct (IH _ _ Hv) as (results & Hres & Htexts).
    exists (o :: results).
    rewrite ocr_inputs_app, overlay_texts_app, ocr_inputs_step, overlay_texts_step.
    split.
    + constructor; [exact Hocr | exact Hres].
    + now rewrite Htexts, (survivors_cons o results), map_app.
Qed.

(** When the OCR reads from the crops of the annotated frame what it reads
    from the crops of the frame as it was given, the texts of the overlay
    are those of the usable results of [predict], in the same order. *)
Lemma overlay_texts_unaffected f0 dets : forall calls results,
  (forall calls d, In d dets ->
     ocr_predict (crop_of (replay cv2_draw calls f0) d) = ocr_predict (crop_of f0 d)) ->
  Forall2 (fun d o => ocr_predict (crop_of f0 d) = inr o) dets results ->
  fst (overlay_events ocr_predict cv2_draw (replay cv2_draw calls f0) dets) = inr tt
  /\ overlay_texts (snd (overlay_events ocr_predict cv2_draw (replay cv2_draw calls f0) dets))
     = map display_text_of (survivors results).
Proof.
  induction dets as [|d dets IH]; intros calls results Hblind Hres.
  - inversion Hres; subst. split; reflexivity.
  - inversion Hres as [|d' o dets' rest Ho Hrest]; subst.
    cbn [overlay_events].
    assert (Hcrop : ocr_predict (crop_of (cv2_draw (box_call d) (replay cv2_draw calls f0)) d)
                    = inr o).
    { rewrite <- Ho, <- (Hblind (calls ++ [box_call d]) d); [|now left].
      now rewrite replay_app. }
    rewrite Hcrop. cbn [fst snd].
    rewrite <- replay_app.
    destruct (IH (calls ++ draws_of (EvDraw (box_call d)
                    :: EvOcr (crop_of (cv2_draw (box_call d) (replay cv2_draw calls f0)) d)
                    :: label_events d o)) rest) as [Hout Htexts].
    { intros c d0 Hd0. apply Hblind. now right. }
    { exact Hrest. }
    split; [exact Hout|].
    rewrite overlay_texts_app, overlay_texts_step, Htexts.
    now rewrite (survivors_cons o rest), map_app.
Qed.

End Overlay.

(** ** Slices *)

Lemma slice_empty {A} (l : list A) (start stop : Z) :
  0 <= start -> 0 <= stop -> stop <= start -> Np.slice l start stop = [].
Proof.
  intros Hs He Hle. unfold Np.slice, Np.adjust.
  destruct (Z.ltb_spec start 0) as [?|_]; [lia|].
  destruct (Z.ltb_spec stop 0) as [?|_]; [lia|].
  replace (Z.to_nat _) with 0%nat by lia. reflexivity.
Qed.

Lemma size_no_columns (rows : Frame) :
  Forall (fun row => row = []) rows -> Np.size rows = 0%nat.
Proof.
  unfold Np.size. induction 1 as [|row rows Hrow _ IH]; [reflexivity|].
  subst row. exact IH.
Qed.


(** ** The store after an in-place update *)


(** ** The claims *)
Section Claims.

Context {num : Type} `{Numeric num} {Exn : Type}.
Variable detector_predict : Frame -> Exn + list Detection.
Variable ocr_predict : Frame -> Exn + option (OcrResult num).
Variable cv2_draw : DrawCall -> Frame -> Frame.


(** C1.  When the detector yields [dets] and the OCR returns [results] on
    their crops, [predict] returns the plate texts of the usable results
    (present, with a non-empty text and non-empty confidences), one string
    for each, in the order of the detections; so the length of the output
    is the number of successful detections, and at most the number of
    detections. *)
Theorem predict_returns_successful_texts frame w dets results :
  detector_predict (store w !!! frame) = inr dets ->
  Forall2 (fun d o => ocr_predict (crop_of (store w !!! frame) d) = inr o) dets results ->
  exists plates,
    fst (predict detector_predict ocr_predict frame w) = inr plates
    /\ plates = map plate_text_of (survivors results)
    /\ length plates = count_occ bool_dec (map successful results) true
    /\ (length plates <= length dets)%nat.
Proof.
  intros Hdet Hres. exists (map plate_text_of (survivors results)).
  rewrite (predict_run _ _ frame w dets results Hdet Hres). cbn [fst].
  rewrite length_map, survivors_length.
  repeat split.
  rewrite <- survivors_length. etransitivity; [apply survivors_le|].
  now rewrite (Forall2_length _ _ _ Hres).
Qed.

(** C10.  A string returned by [predict] for a surviving result whose
    padding symbol is the single character [c] has no occurrence of [c]. *)
Theorem predict_output_has_no_padding frame w dets results :
  detector_predict (store w !!! frame) = inr dets ->
  Forall2 (fun d o => ocr_predict (crop_of (store w !!! frame) d) = inr o) dets results ->
  exists plates,
    fst (predict detector_predict ocr_predict frame w) = inr plates
    /\ Forall2 (fun r plate =>
                  forall c, padding_symbol r = Some (String c "") ->
                            PyStr.contains (String c "") plate = false)
               (survivors results) plates.
Proof.
  intros Hdet Hres. exists (map plate_text_of (survivors results)).
  rewrite (predict_run _ _ frame w dets results Hdet Hres). split; [reflexivity|].
  induction (survivors results) as [|r rs IH]; cbn [map]; constructor; [|exact IH].
  intros c Hc. unfold plate_text_of. rewrite Hc. cbn [Py.or_empty].
  rewrite replace_one_char. apply remove_char_absent.
Qed.

(** C3.  For a surviving OCR result with text [s], the text appended by
    [predict] and shown by [draw_predictions] is [s] itself when the
    padding symbol is unset (or empty), and [s] with every occurrence of
    the character [c] deleted, wherever it stands, when the padding symbol
    is [c]. *)
Theorem plate_text_is_text_without_padding frame acc d w f r s :
  store w !! frame = Some f ->
  text r = Some s -> usable r = true ->
  (padding_symbol r = None -> plate_text_of r = s)
  /\ (padding_symbol r = Some "" -> plate_text_of r = s)
  /\ (forall c, padding_symbol r = Some (String c "") ->
                plate_text_of r = PyStr.remove_char c s
                /\ list_ascii_of_string (plate_text_of r)
                   = List.filter (fun a => negb (Ascii.eqb a c)) (list_ascii_of_string s))
  /\ (forall p, padding_symbol r = Some p -> plate_text_of r = PyStr.replace s p "")
  /\ (ocr_predict (crop_of f d) = inr (Some r) ->
      fst (predict_step ocr_predict frame acc d w) = inr (acc ++ [plate_text_of r]))
  /\ (ocr_predict (crop_of (cv2_draw (box_call d) f) d) = inr (Some r) ->
      exists confidence,
        overlay_texts (trace (snd (draw_step ocr_predict cv2_draw frame tt d w)))
        = overlay_texts (trace w) ++ [plate_text_of r +:+ " " +:+ confidence +:+ "%"]).
Proof.
  intros Hf Hs Hu. unfold plate_text_of. rewrite Hs. cbn [Py.str].
  split; [|split; [|split; [|split; [|split]]]].
  - intros ->. apply replace_empty_old.
  - intros ->. apply replace_empty_old.
  - intros c ->. cbn [Py.or_empty]. rewrite replace_one_char.
    split; [reflexivity | apply remove_char_filter].
  - intros p ->. reflexivity.
  - intros Hocr. rewrite predict_step_run, (lookup_total_correct _ _ _ Hf), Hocr.
    cbn [fst]. rewrite survivors_one, Hu. cbn [map]. unfold plate_text_of. now rewrite Hs.
  - intros Hocr. rewrite (draw_step_run _ _ frame d w f Hf), Hocr.
    exists (format_2f (times_100 (np_mean (confidences r)))).
    cbn [snd after trace]. rewrite overlay_texts_app, overlay_texts_step.
    rewrite survivors_one, Hu. cbn [map]. unfold display_text_of, plate_text_of.
    now rewrite Hs.
Qed.

(** C8.  When the detector finds nothing, [predict] returns the empty list
    and [draw_predictions] returns the frame; in both the only event is
    the call of the detector, so nothing is drawn and the store is as it
    was. *)
Theorem no_detection_no_effect frame w f :
  store w !! frame = Some f ->
  detector_predict f = inr [] ->
  predict detector_predict ocr_predict frame w = (inr [], log (EvDetect f) w)
  /\ draw_predictions detector_predict ocr_predict cv2_draw frame w = (inr frame, log (EvDetect f) w)
  /\ store (log (EvDetect f) w) = store w
  /\ draws_of (trace (log (EvDetect f) w)) = draws_of (trace w).
Proof.
  intros Hf Hdet. split; [|split; [|split]].
  - pose proof (lookup_total_correct _ _ _ Hf) as Hf'.
    rewrite <- Hf' in Hdet.
    rewrite (predict_run _ _ frame w [] [] Hdet); [|constructor].
    rewrite Hf'. reflexivity.
  - rewrite (draw_predictions_run _ _ _ frame w f Hf), Hdet. cbn [overlay_events fst snd].
    f_equal. unfold after, log. cbn. f_equal. now apply alter_same.
  - reflexivity.
  - cbn [log trace]. rewrite draws_of_app. cbn. apply app_nil_r.
Qed.


End Claims.

Section OverlayClaims.

Context {num : Type} `{Numeric num} {Exn : Type}.
Variable detector_predict : Frame -> Exn + list Detection.
Variable ocr_predict : Frame -> Exn + option (OcrResult num).
Variable cv2_draw : DrawCall -> Frame -> Frame.


(** C5, as amended.  [draw_predictions] draws the green rectangle of
    thickness 2 at the bounding box of every detection it reaches, in
    their order and before the OCR call of the detection, whatever the
    OCR then returns; only the texts are kept for the surviving
    detections. *)
Theorem rectangle_drawn_for_every_detection frame w f dets :
  store w !! frame = Some f ->
  detector_predict f = inr dets ->
  (forall d w0 f0, store w0 !! frame = Some f0 ->
     exists rest,
       snd (draw_step ocr_predict cv2_draw frame tt d w0)
       = after cv2_draw frame
           (EvDraw (rectangle (x1 (bounding_box d), y1 (bounding_box d))
                              (x2 (bounding_box d), y2 (bounding_box d))
                              (36, 255, 12) 2)
            :: EvOcr (crop_of (cv2_draw (box_call d) f0) d) :: rest) w0
       /\ rectangles_of rest = [])
  /\ exists evs,
       snd (draw_predictions detector_predict ocr_predict cv2_draw frame w)
       = after cv2_draw frame (EvDetect f :: evs) w
       /\ rectangles_of evs `prefix_of` map box_call dets
       /\ (forall v,
             fst (draw_predictions detector_predict ocr_predict cv2_draw frame w) = inr v ->
             rectangles_of evs = map box_call dets
             /\ exists results,
                  Forall2 (fun crop o => ocr_predict crop = inr o) (ocr_inputs evs) results
                  /\ length results = length dets
                  /\ overlay_texts evs = map display_text_of (survivors results)).
Proof.
  intros Hf Hdet. split.
  - intros d w0 f0 Hf0. rewrite (draw_step_run _ _ frame d w0 f0 Hf0).
    destruct (ocr_predict _) as [e|o]; cbn [snd].
    + exists []. split; reflexivity.
    + exists (label_events d o). split; [reflexivity|].
      destruct o as [r|]; cbn; [destruct (usable r)|]; reflexivity.
  - rewrite (draw_predictions_run _ _ _ frame w f Hf), Hdet. cbn [fst snd].
    eexists. split; [reflexivity|]. split; [apply overlay_rectangles_prefix|].
    intros v Hv.
    destruct (fst (overlay_events _ _ _ _)) as [e|[]] eqn:Hout; [discriminate|].
    destruct (overlay_complete _ _ _ _ _ Hout) as [Hrect Hlen].
    split; [exact Hrect|].
    destruct (overlay_texts_results _ _ _ _ _ Hout) as (results & Hres & Htexts).
    exists results. split; [exact Hres|]. split; [|exact Htexts].
    now rewrite <- (Forall2_length _ _ _ Hres).
Qed.


End OverlayClaims.

(** ** Numbers *)

Lemma round_half_even_nearest (n d : Z) :
  0 < d -> Z.abs (2 * (d * Fmt.round_half_even n d - n)) <= d.
Proof.
  intros Hd. unfold Fmt.round_half_even.
  pose proof (Z.div_mod n d ltac:(lia)) as Hdiv.
  pose proof (Z.mod_pos_bound n d Hd) as Hmod.
  destruct (Z.compare_spec (2 * (n mod d)) d) as [Heq|Hlt|Hgt].
  - destruct (Z.even (n / d)); lia.
  - lia.
  - lia.
Qed.

Lemma exact_mean_is_arithmetic_mean (l : list Q) :
  l <> [] ->
  (Exact.mean l * inject_Z (Z.of_nat (length l)) == Exact.sum l)%Q.
Proof.
  intros Hl. unfold Exact.mean. rewrite Qmult_comm. apply Qmult_div_r.
  destruct l as [|q l]; [congruence|]. unfold Qeq. cbn. lia.
Qed.

(** The split of the pairwise summation halves the array, so a fuel of the
    length of the array is never used up: any two such fuels give the same
    sum. *)
Lemma pairwise_sum_fuel (fuel : nat) : forall (fuel' : nat) (l : list float),
  (length l <= fuel)%nat -> (length l <= fuel')%nat ->
  Binary64.pairwise_sum fuel l = Binary64.pairwise_sum fuel' l.
Proof.
  induction fuel as [|k IH]; intros fuel' l Hk Hk'.
  - destruct l; [|cbn in Hk; lia]. destruct fuel'; reflexivity.
  - destruct fuel' as [|k'].
    + destruct l; [reflexivity | cbn in Hk'; lia].
    + cbn [Binary64.pairwise_sum].
      destruct (Nat.ltb_spec (length l) 8) as [?|Hge8]; [reflexivity|].
      destruct (Nat.leb_spec (length l) 128) as [?|Hgt]; [reflexivity|].
      assert (Hn2 : (1 <= length l / 2 - (length l / 2) mod 8 < length l)%nat).
      { pose proof (Nat.mod_upper_bound (length l / 2) 8 ltac:(lia)).
        pose proof (Nat.Div0.div_lt_upper_bound (length l) 2 (length l) ltac:(lia)).
        assert (64 <= length l / 2)%nat by (apply Nat.div_le_lower_bound; lia).
        lia. }
      f_equal; apply IH; rewrite ?length_take, ?length_drop; lia.
Qed.

Section MoreOverlay.

Context {num : Type} `{Numeric num} {Exn : Type}.
Variable detector_predict : Frame -> Exn + list Detection.
Variable ocr_predict : Frame -> Exn + option (OcrResult num).
Variable cv2_draw : DrawCall -> Frame -> Frame.

(** X12.  An OCR that reads the same from a crop whatever was drawn on the
    frame makes the overlay show the plates that [predict] returns, in the
    same order, each with its confidence figure. *)
Lemma overlay_agrees_when_ocr_unaffected frame w f dets results :
  store w !! frame = Some f ->
  detector_predict f = inr dets ->
  (forall calls d, In d dets ->
     ocr_predict (crop_of (replay cv2_draw calls f) d) = ocr_predict (crop_of f d)) ->
  Forall2 (fun d o => ocr_predict (crop_of f d) = inr o) dets results ->
  fst (predict detector_predict ocr_predict frame w)
  = inr (map plate_text_of (survivors results))
  /\ fst (draw_predictions detector_predict ocr_predict cv2_draw frame w) = inr frame
  /\ overlay_texts (trace (snd (draw_predictions detector_predict ocr_predict cv2_draw frame w)))
     = overlay_texts (trace w) ++ map display_text_of (survivors results).
Proof.
  intros Hf Hdet Hblind Hres.
  pose proof (lookup_total_correct _ _ _ Hf) as Hf'.
  destruct (overlay_texts_unaffected ocr_predict cv2_draw f dets [] results Hblind Hres)
    as [Hout Htexts].
  change (replay cv2_draw [] f) with f in Hout, Htexts.
  split; [|split].
  - rewrite predict_outcome, Hf', Hdet.
    assert (Hc : collect (map (fun d => ocr_predict (crop_of f d)) dets) = inr results).
    { clear -Hres. induction Hres as [|d o ds rs Ho _ IH]; [reflexivity|].
      cbn [map collect]. now rewrite Ho, IH. }
    now rewrite Hc.
  - rewrite (draw_predictions_run _ _ _ frame w f Hf), Hdet. cbn [fst]. now rewrite Hout.
  - rewrite (draw_predictions_run _ _ _ frame w f Hf), Hdet. cbn [snd after trace].
    rewrite overlay_texts_app. f_equal.
    change (EvDetect f :: ?l) with ([EvDetect f] ++ l).
    now rewrite overlay_texts_app, Htexts.
Qed.

(** Whenever drawing the rectangle of a detection changes its crop, there
    is an OCR that [predict] and the overlay hear differently: it reads a
    plate from the crop of the frame as given and nothing from any other
    crop. *)
Lemma overlay_disagrees_when_rectangle_alters_crop frame w f d (r : OcrResult num) :
  store w !! frame = Some f ->
  usable r = true ->
  crop_of (cv2_draw (box_call d) f) d <> crop_of f d ->
  let detector : Frame -> Exn + list Detection := fun _ => inr [d] in
  let ocr : Frame -> Exn + option (OcrResult num) :=
    fun crop => if decide (crop = crop_of f d) then inr (Some r) else inr None in
  fst (predict detector ocr frame w) = inr [plate_text_of r]
  /\ fst (draw_predictions detector ocr cv2_draw frame w) = inr frame
  /\ overlay_texts (trace (snd (draw_predictions detector ocr cv2_draw frame w)))
     = overlay_texts (trace w).
Proof.
  intros Hf Hu Hne detector ocr.
  pose proof (lookup_total_correct _ _ _ Hf) as Hf'.
  assert (Hclean : ocr (crop_of f d) = inr (Some r)).
  { unfold ocr. now rewrite decide_True. }
  assert (Hdrawn : ocr (crop_of (cv2_draw (box_call d) f) d) = inr None).
  { unfold ocr. now rewrite decide_False. }
  split; [|split].
  - rewrite (predict_run detector ocr frame w [d] [Some r]).
    + cbn [fst survivors]. now rewrite Hu.
    + reflexivity.
    + rewrite Hf'. constructor; [exact Hclean | constructor].
  - rewrite (draw_predictions_run detector ocr cv2_draw frame w f Hf).
    change (detector f) with (@inr Exn _ [d]).
    cbn [overlay_events]. now rewrite Hdrawn.
  - rewrite (draw_predictions_run detector ocr cv2_draw frame w f Hf).
    change (detector f) with (@inr Exn _ [d]).
    cbn [overlay_events]. rewrite Hdrawn. cbn [snd fst after trace label_events app].
    rewrite overlay_texts_app. cbn. apply app_nil_r.
Qed.

(** C7.  For a surviving detection, both renderings show the plate text, a
    space, and the mean of the whole confidence sequence of the OCR result
    (padding slots included) times 100 with two decimals and a percent
    sign.  On rationals the mean is the arithmetic mean, and for
    [0.9, 0.95, 1.0] the figure is 95.00, on rationals and on binary64
    floats alike. *)
Theorem overlay_shows_mean_of_raw_confidences frame d w f r :
  store w !! frame = Some f ->
  usable r = true ->
  ocr_predict (crop_of (cv2_draw (box_call d) f) d) = inr (Some r) ->
  (let shown :=
     plate_text_of r +:+ " " +:+ format_2f (times_100 (np_mean (confidences r))) +:+ "%" in
   let org := (x1 (bounding_box d), y1 (bounding_box d) - 10) in
   draws_of (trace (snd (draw_step ocr_predict cv2_draw frame tt d w)))
   = draws_of (trace w)
     ++ [ box_call d;
          putText shown org FONT_HERSHEY_SIMPLEX (5 # 4)%Q (0, 0, 0) 6 LINE_AA;
          putText shown org FONT_HERSHEY_SIMPLEX (5 # 4)%Q (255, 255, 255) 2 LINE_AA ])
  /\ (forall l : list Q, l <> [] ->
        (np_mean l * inject_Z (Z.of_nat (length l)) == fold_left Qplus l 0)%Q)
  /\ (forall q : Q, (times_100 q == q * 100)%Q)
  /\ format_2f (times_100 (np_mean [9 # 10; 95 # 100; 1 # 1]%Q)) +:+ "%" = "95.00%"
  /\ format_2f (times_100 (np_mean [0.9; 0.95; 1.0]%float)) +:+ "%" = "95.00%".
Proof.
  intros Hf Hu Hocr. split; [|split; [|split; [|split]]].
  - rewrite (draw_step_run _ _ frame d w f Hf), Hocr. cbn [snd after trace].
    rewrite draws_of_app. f_equal. cbn [label_events]. rewrite Hu. reflexivity.
  - exact exact_mean_is_arithmetic_mean.
  - intros q. reflexivity.
  - vm_compute. reflexivity.
  - vm_compute. reflexivity.
Qed.

End MoreOverlay.

(** ** Concrete runs *)

Import Demo.

(** C4: the overlay reads its own rectangle.  On a black 8 by 8 frame with
    one detection at (1, 1, 6, 6) and an OCR that reads AB_12 from a crop
    with a clean border and nothing otherwise, [predict] returns AB12, and
    [draw_predictions] shows no text: it has handed the OCR the crop with
    the rectangle already on it. *)
Theorem overlay_reads_annotated_crop :
  let frame := blank 8 8 in
  let detector := finds [detection 1 1 6 6] in
  let ocr := reads_clean_crop (Some ab_12) in
  let box := rectangle (1, 1) (6, 6) (36, 255, 12) 2 in
  let recognition := predict detector ocr frame_ref (world_of frame) in
  let overlay := draw_predictions detector ocr Canvas.draw frame_ref (world_of frame) in
  fst recognition = inr ["AB12"]
  /\ fst overlay = inr frame_ref
  /\ overlay_texts (trace (snd overlay)) = []
  /\ ocr_inputs (trace (snd recognition)) = [Np.getitem frame 1 6 1 6]
  /\ ocr_inputs (trace (snd overlay)) = [Np.getitem (Canvas.draw box frame) 1 6 1 6]
  /\ Np.getitem (Canvas.draw box frame) 1 6 1 6 <> Np.getitem frame 1 6 1 6.
Proof. vm_compute. repeat split; try reflexivity. discriminate. Qed.


(** C5, counterexample: the rectangle is drawn for a detection whose OCR
    result is absent. *)
Lemma rectangle_drawn_though_ocr_absent :
  let frame := blank 8 8 in
  let overlay :=
    draw_predictions (finds [detection 1 1 6 6]) (@reads Q None) Canvas.draw
                     frame_ref (world_of frame) in
  fst overlay = inr frame_ref
  /\ rectangles_of (trace (snd overlay)) = [rectangle (1, 1) (6, 6) (36, 255, 12) 2]
  /\ store (snd overlay) !! frame_ref
     = Some (Canvas.draw (rectangle (1, 1) (6, 6) (36, 255, 12) 2) frame)
  /\ Canvas.draw (rectangle (1, 1) (6, 6) (36, 255, 12) 2) frame <> frame.
Proof. vm_compute. repeat split; try reflexivity. discriminate. Qed.

(** *** The street scene, claim by claim *)

Lemma predict_returns_successful_texts_witness :
  exists plates,
    fst (predict (finds street_detections) street_ocr frame_ref (world_of street)) = inr plates
    /\ plates = map plate_text_of (survivors street_results)
    /\ length plates = count_occ bool_dec (map successful street_results) true
    /\ (length plates <= length street_detections)%nat.
Proof.
  apply (predict_returns_successful_texts (finds street_detections) street_ocr
           frame_ref (world_of street) street_detections street_results).
  - reflexivity.
  - repeat constructor.
Defined.

Lemma predict_output_has_no_padding_witness :
  exists plates,
    fst (predict (finds street_detections) street_ocr frame_ref (world_of street)) = inr plates
    /\ Forall2 (fun r plate =>
                  forall c, padding_symbol r = Some (String c "") ->
                            PyStr.contains (String c "") plate = false)
               (survivors street_results) plates.
Proof.
  apply (predict_output_has_no_padding (finds street_detections) street_ocr
           frame_ref (world_of street) street_detections street_results).
  - reflexivity.
  - repeat constructor.
Defined.

Lemma plate_text_is_text_without_padding_witness :
  let d := detection 10 10 50 40 in
  (padding_symbol ab_12 = None -> plate_text_of ab_12 = "AB_12")
  /\ (padding_symbol ab_12 = Some "" -> plate_text_of ab_12 = "AB_12")
  /\ (forall c, padding_symbol ab_12 = Some (String c "") ->
                plate_text_of ab_12 = PyStr.remove_char c "AB_12"
                /\ list_ascii_of_string (plate_text_of ab_12)
                   = List.filter (fun a => negb (Ascii.eqb a c))
                                 (list_ascii_of_string "AB_12"))
  /\ (forall p, padding_symbol ab_12 = Some p ->
                plate_text_of ab_12 = PyStr.replace "AB_12" p "")
  /\ (street_ocr (crop_of street d) = inr (Some ab_12) ->
      fst (predict_step street_ocr frame_ref ["XY9"] d (world_of street))
      = inr (["XY9"] ++ [plate_text_of ab_12]))
  /\ (street_ocr (crop_of (Canvas.draw (box_call d) street) d) = inr (Some ab_12) ->
      exists confidence,
        overlay_texts (trace (snd (draw_step street_ocr Canvas.draw frame_ref tt d
                                             (world_of street))))
        = overlay_texts (trace (world_of street))
          ++ [plate_text_of ab_12 +:+ " " +:+ confidence +:+ "%"]).
Proof.
  intros d.
  apply (plate_text_is_text_without_padding street_ocr Canvas.draw frame_ref ["XY9"] d
           (world_of street) street ab_12 "AB_12"); reflexivity.
Defined.

Lemma no_detection_no_effect_witness :
  predict (finds []) street_ocr frame_ref (world_of street)
  = (inr [], log (EvDetect street) (world_of street))
  /\ draw_predictions (finds []) street_ocr Canvas.draw frame_ref (world_of street)
     = (inr frame_ref, log (EvDetect street) (world_of street))
  /\ store (log (EvDetect street) (world_of street)) = store (world_of street)
  /\ draws_of (trace (log (EvDetect street) (world_of street)))
     = draws_of (trace (world_of street)).
Proof.
  apply (no_detection_no_effect (finds []) street_ocr Canvas.draw frame_ref
           (world_of street) street); reflexivity.
Defined.



Lemma rectangle_drawn_for_every_detection_witness :
  let w := world_of street in
  let detector := finds street_detections in
  (forall d w0 f0, store w0 !! frame_ref = Some f0 ->
     exists rest,
       snd (draw_step street_ocr Canvas.draw frame_ref tt d w0)
       = after Canvas.draw frame_ref
           (EvDraw (rectangle (x1 (bounding_box d), y1 (bounding_box d))
                              (x2 (bounding_box d), y2 (bounding_box d))
                              (36, 255, 12) 2)
            :: EvOcr (crop_of (Canvas.draw (box_call d) f0) d) :: rest) w0
       /\ rectangles_of rest = [])
  /\ exists evs,
       snd (draw_predictions detector street_ocr Canvas.draw frame_ref w)
       = after Canvas.draw frame_ref (EvDetect street :: evs) w
       /\ rectangles_of evs `prefix_of` map box_call street_detections
       /\ (forall v,
             fst (draw_predictions detector street_ocr Canvas.draw frame_ref w) = inr v ->
             rectangles_of evs = map box_call street_detections
             /\ exists results,
                  Forall2 (fun crop o => street_ocr crop = inr o) (ocr_inputs evs) results
                  /\ length results = length street_detections
                  /\ overlay_texts evs = map display_text_of (survivors results)).
Proof.
  intros w detector.
  apply (rectangle_drawn_for_every_detection detector street_ocr Canvas.draw frame_ref w
           street street_detections); reflexivity.
Defined.


Lemma overlay_shows_mean_of_raw_confidences_witness :
  let d := detection 10 10 50 40 in
  let w := world_of street in
  draws_of (trace (snd (draw_step street_ocr Canvas.draw frame_ref tt d w)))
  = draws_of (trace w)
    ++ [ box_call d;
         putText "AB12 88.00%" (10, 0) FONT_HERSHEY_SIMPLEX (5 # 4)%Q (0, 0, 0) 6 LINE_AA;
         putText "AB12 88.00%" (10, 0) FONT_HERSHEY_SIMPLEX (5 # 4)%Q (255, 255, 255) 2
                 LINE_AA ].
Proof.
  intros d w.
  refine (proj1 (overlay_shows_mean_of_raw_confidences street_ocr Canvas.draw frame_ref d w
                   street ab_12 _ _ _)); reflexivity.
Defined.

(** *** The scenarios of the specification *)

Example scenario_one_plate :
  let detector := finds [detection 10 10 50 40] in
  let ocr := reads (Some ab12) in
  fst (predict detector ocr frame_ref (world_of street)) = inr ["AB12"]
  /\ draws_of (trace (snd (draw_predictions detector ocr Canvas.draw frame_ref
                                            (world_of street))))
     = [ rectangle (10, 10) (50, 40) (36, 255, 12) 2;
         putText "AB12 97.50%" (10, 0) FONT_HERSHEY_SIMPLEX (5 # 4)%Q (0, 0, 0) 6 LINE_AA;
         putText "AB12 97.50%" (10, 0) FONT_HERSHEY_SIMPLEX (5 # 4)%Q (255, 255, 255) 2
                 LINE_AA ].
Proof. vm_compute. split; reflexivity. Qed.

Example scenario_street :
  fst (predict (finds street_detections) street_ocr frame_ref (world_of street))
  = inr ["AB12"; "XY9"]
  /\ overlay_texts (trace (snd (draw_predictions (finds street_detections) street_ocr
                                                 Canvas.draw frame_ref (world_of street))))
     = ["AB12 88.00%"; "XY9 65.00%"].
Proof. vm_compute. split; reflexivity. Qed.

Example scenario_unusable_results :
  let detector := finds [detection 10 10 50 40; detection 20 30 60 50] in
  let ocr := reads_by_height [(30%nat, Some no_confidences); (20%nat, None)] in
  fst (predict detector ocr frame_ref (world_of street)) = inr []
  /\ draws_of (trace (snd (draw_predictions detector ocr Canvas.draw frame_ref
                                            (world_of street))))
     = [ rectangle (10, 10) (50, 40) (36, 255, 12) 2;
         rectangle (20, 30) (60, 50) (36, 255, 12) 2 ].
Proof. vm_compute. split; reflexivity. Qed.

Example scenario_detector_raises :
  predict detector_down street_ocr frame_ref (world_of street)
  = (inl "detector backend failure", log (EvDetect street) (world_of street)).
Proof. reflexivity. Qed.

Example scenario_ocr_raises_on_empty_crop :
  fst (predict (finds street_detections) (raises_on_empty (Some ab12)) frame_ref
               (world_of street))
  = inl "empty input".
Proof. vm_compute. reflexivity. Qed.

(** A negative bound of a slice counts from the end of the axis. *)
Example slice_counts_from_the_end :
  Np.getitem (blank 4 4) 0 (-1) 0 5 = blank 3 4.
Proof. reflexivity. Qed.

Example replace_drops_every_occurrence :
  PyStr.replace "_A__B_" "_" "" = "AB"
  /\ PyStr.replace "aXYbXYXYc" "XY" "-" = "a-b--c"
  /\ PyStr.replace "abc" "" "-" = "-a-b-c-".
Proof. repeat split. Qed.

Example format_rounds_to_nearest :
  format_2f (1 # 8)%Q = "0.12" /\ format_2f (2.675)%float = "2.67"
  /\ format_2f (1234.5678)%float = "1234.57" /\ format_2f (- (1 # 1000))%Q = "-0.00".
Proof. vm_compute. repeat split. Qed.

(** * Further properties of the code *)

(** ** More on strings *)

Lemma append_length (s t : string) :
  String.length (s +:+ t) = (String.length s + String.length t)%nat.
Proof.
  induction s as [|a s IH]; [reflexivity|].
  change (String a s +:+ t) with (String a (s +:+ t)). cbn [String.length]. now rewrite IH.
Qed.

Lemma replace_scan_shorter (old : string) : forall (s : string) (skip : nat),
  (String.length (PyStr.replace_scan old "" skip s) <= String.length s)%nat.
Proof.
  induction s as [|a s IH]; intros skip; [cbn; lia|].
  cbn [PyStr.replace_scan String.length]. destruct skip as [|k].
  - destruct (PyStr.startswith old (String a s)).
    + rewrite append_nil_l. specialize (IH (Nat.pred (String.length old))). lia.
    + cbn [String.length]. specialize (IH 0%nat). lia.
  - specialize (IH k). lia.
Qed.

Lemma replace_shorter (s old : string) :
  (String.length (PyStr.replace s old "") <= String.length s)%nat.
Proof.
  destruct old as [|a old]; [now rewrite replace_empty_old|].
  apply replace_scan_shorter.
Qed.

Lemma remove_char_length (c : ascii) (s : string) :
  (String.length (PyStr.remove_char c s)
   + count_occ ascii_dec (list_ascii_of_string s) c = String.length s)%nat.
Proof.
  induction s as [|a s IH]; [reflexivity|].
  cbn [PyStr.remove_char list_ascii_of_string count_occ String.length].
  destruct (Ascii.eqb_spec a c) as [->|Hne].
  - destruct (ascii_dec c c); [lia | congruence].
  - destruct (ascii_dec a c); [congruence|]. cbn [String.length]. lia.
Qed.

Lemma remove_char_all (c : ascii) (s : string) :
  Forall (fun a => a = c) (list_ascii_of_string s) -> PyStr.remove_char c s = "".
Proof.
  induction s as [|a s IH]; [reflexivity|].
  cbn [list_ascii_of_string]. intros Hall. inversion Hall as [|? ? Ha Hs]; subst.
  cbn [PyStr.remove_char]. rewrite Ascii.eqb_refl. now apply IH.
Qed.

(** ** More on the recognition *)

Lemma collect_app {E A} (a b : list (E + A)) :
  collect (a ++ b)
  = match collect a with
    | inl e => inl e
    | inr va => match collect b with inl e => inl e | inr vb => inr (va ++ vb) end
    end.
Proof.
  induction a as [|[e|x] a IH]; cbn [app collect].
  - now destruct (collect b).
  - reflexivity.
  - rewrite IH. destruct (collect a) as [e|va]; [reflexivity|].
    now destruct (collect b).
Qed.

Section MoreRecognition.

Context {num : Type} {Exn : Type}.
Variable ocr_predict : Frame -> Exn + option (OcrResult num).

(** X1.  In [predict] every detection is read on its own: when the
    detector yields the detections [a] followed by [b], the output is the
    output for [a] followed by the output for [b], and an exception on
    either part is an exception on the whole. *)
Theorem predict_reads_detections_independently
    (detector_a detector_b detector_ab : Frame -> Exn + list Detection)
    frame w a b :
  detector_a (store w !!! frame) = inr a ->
  detector_b (store w !!! frame) = inr b ->
  detector_ab (store w !!! frame) = inr (a ++ b) ->
  (forall plates_a plates_b,
     fst (predict detector_a ocr_predict frame w) = inr plates_a ->
     fst (predict detector_b ocr_predict frame w) = inr plates_b ->
     fst (predict detector_ab ocr_predict frame w) = inr (plates_a ++ plates_b))
  /\ (forall e,
        fst (predict detector_a ocr_predict frame w) = inl e ->
        fst (predict detector_ab ocr_predict frame w) = inl e)
  /\ (forall plates_a e,
        fst (predict detector_a ocr_predict frame w) = inr plates_a ->
        fst (predict detector_b ocr_predict frame w) = inl e ->
        fst (predict detector_ab ocr_predict frame w) = inl e).
Proof.
  intros Ha Hb Hab. rewrite !predict_outcome, Ha, Hb, Hab, map_app, collect_app.
  destruct (collect (map _ a)) as [ea|ra]; destruct (collect (map _ b)) as [eb|rb];
    (split; [|split]); intros; try discriminate; try congruence.
  rewrite survivors_app, map_app. congruence.
Qed.

(** The loop of [predict] when the OCR raises: the detections before the
    failing one were read, the failing one was handed to the OCR, the
    later ones never are. *)
Lemma predict_loop_raises frame dets : forall acc w e,
  fst (for_each (predict_step ocr_predict frame) dets acc w) = inl e ->
  exists done d todo,
    dets = done ++ d :: todo
    /\ Forall (fun d' => exists o, ocr_predict (crop_of (store w !!! frame) d') = inr o) done
    /\ ocr_predict (crop_of (store w !!! frame) d) = inl e
    /\ snd (for_each (predict_step ocr_predict frame) dets acc w)
       = {| store := store w;
            trace := trace w ++ map EvOcr (map (crop_of (store w !!! frame)) (done ++ [d])) |}.
Proof.
  induction dets as [|d dets IH]; intros acc w e; [discriminate|].
  cbn [for_each]. unfold bind. rewrite predict_step_run.
  destruct (ocr_predict (crop_of (store w !!! frame) d)) as [e'|o] eqn:Hocr; cbn [fst snd].
  - intros [= ->]. exists [], d, dets. repeat split; [constructor | exact Hocr].
  - intros He. destruct (IH _ _ _ He) as (done & d' & todo & -> & Hdone & Hd' & Hw).
    cbn [log store trace] in Hdone, Hd', Hw.
    exists (d :: done), d', todo. split; [reflexivity|]. split; [|split].
    + constructor; [now exists o | exact Hdone].
    + exact Hd'.
    + rewrite Hw. cbn [app map]. now rewrite <- app_assoc.
Qed.

(** X2.  The calls [predict] makes, in every run: the detector once, on
    the frame; then the OCR on the crops of the detections in their order,
    up to the first one on which it raises.  The detections after that one
    are never handed to the OCR, the plates read before it are not
    returned, and no other call is made. *)
Theorem predict_stops_at_first_failure
    (detector_predict : Frame -> Exn + list Detection) frame w dets e :
  detector_predict (store w !!! frame) = inr dets ->
  fst (predict detector_predict ocr_predict frame w) = inl e ->
  exists done d todo,
    dets = done ++ d :: todo
    /\ Forall (fun d' => exists o, ocr_predict (crop_of (store w !!! frame) d') = inr o) done
    /\ ocr_predict (crop_of (store w !!! frame) d) = inl e
    /\ snd (predict detector_predict ocr_predict frame w)
       = {| store := store w;
            trace := trace w ++ EvDetect (store w !!! frame)
                       :: map EvOcr (map (crop_of (store w !!! frame)) (done ++ [d])) |}.
Proof.
  intros Hdet. unfold predict, bind, call_detector. rewrite Hdet.
  intros He. destruct (predict_loop_raises _ _ _ _ _ He) as (done & d & todo & Hd & Hdone & Hocr & Hw).
  cbn [log store trace] in Hdone, Hocr, Hw.
  exists done, d, todo. split; [exact Hd|]. split; [exact Hdone|]. split; [exact Hocr|].
  rewrite Hw. now rewrite <- app_assoc.
Qed.

(** X3.  A result whose text is made of the padding character alone
    passes the skip test, which looks at the text as the OCR gave it:
    [predict] appends the empty string for it. *)
Theorem all_padding_text_gives_empty_plate frame acc d w r s c :
  text r = Some s -> s <> "" ->
  Forall (fun a => a = c) (list_ascii_of_string s) ->
  padding_symbol r = Some (String c "") ->
  confidences r <> [] ->
  ocr_predict (crop_of (store w !!! frame) d) = inr (Some r) ->
  usable r = true
  /\ plate_text_of r = ""
  /\ fst (predict_step ocr_predict frame acc d w) = inr (acc ++ [""]).
Proof.
  intros Hs Hne Hall Hp Hc Hocr.
  assert (Hu : usable r = true).
  { unfold usable. rewrite Hs. destruct s; [congruence|].
    destruct (confidences r); [congruence | reflexivity]. }
  assert (Hplate : plate_text_of r = "").
  { unfold plate_text_of. rewrite Hs, Hp. cbn [Py.str Py.or_empty].
    rewrite replace_one_char. now apply remove_char_all. }
  split; [exact Hu|]. split; [exact Hplate|].
  rewrite predict_step_run, Hocr. cbn [fst]. rewrite survivors_one, Hu. cbn [map].
  now rewrite Hplate.
Qed.

End MoreRecognition.

(** X4.  The plate text is never longer than the text the OCR gave, whatever
    the padding symbol; with a one-character padding symbol it is shorter by
    the number of occurrences of that character. *)
Theorem plate_text_length {num} (r : OcrResult num) (s : string) :
  text r = Some s ->
  (String.length (plate_text_of r) <= String.length s)%nat
  /\ (forall c, padding_symbol r = Some (String c "") ->
        (String.length (plate_text_of r)
         + count_occ ascii_dec (list_ascii_of_string s) c = String.length s)%nat).
Proof.
  intros Hs. unfold plate_text_of. rewrite Hs. cbn [Py.str]. split.
  - apply replace_shorter.
  - intros c ->. cbn [Py.or_empty]. rewrite replace_one_char. apply remove_char_length.
Qed.

(** X5.  Cleaning is idempotent for a padding symbol of at most one
    character: the plate text of a result whose text is already a plate text
    for the same padding symbol is that text. *)
Theorem plate_text_idempotent {num} (r r' : OcrResult num) :
  (padding_symbol r = None \/ padding_symbol r = Some ""
   \/ exists c, padding_symbol r = Some (String c "")) ->
  padding_symbol r' = padding_symbol r ->
  text r' = Some (plate_text_of r) ->
  plate_text_of r' = plate_text_of r.
Proof.
  intros Hp Hp' Ht. unfold plate_text_of at 1. rewrite Ht, Hp'. cbn [Py.str].
  destruct Hp as [Hp|[Hp|[c Hp]]]; rewrite Hp; cbn [Py.or_empty].
  - apply replace_empty_old.
  - apply replace_empty_old.
  - rewrite replace_one_char. apply remove_char_fixed.
    unfold plate_text_of. rewrite Hp. cbn [Py.or_empty]. rewrite replace_one_char.
    apply remove_char_absent.
Qed.

(** ** More on the overlay *)

Section MoreOverlayRuns.

Context {num : Type} `{Numeric num} {Exn : Type}.
Variable detector_predict : Frame -> Exn + list Detection.
Variable ocr_predict : Frame -> Exn + option (OcrResult num).
Variable cv2_draw : DrawCall -> Frame -> Frame.

Lemma draws_of_step d crop (o : option (OcrResult num)) :
  draws_of (EvDraw (box_call d) :: EvOcr crop :: label_events d o)
  = box_call d :: draws_of (label_events d o).
Proof. reflexivity. Qed.

Lemma annotations_length (dets : list Detection) : forall results : list (option (OcrResult num)),
  length results = length dets ->
  length (annotations dets results) = (length dets + 2 * length (survivors results))%nat.
Proof.
  induction dets as [|d dets IH]; intros [|o results] Hlen; try discriminate; [reflexivity|].
  cbn [annotations]. rewrite List.length_app, (survivors_cons o results), List.length_app.
  rewrite IH by (cbn in Hlen; lia). rewrite survivors_one.
  destruct o as [r|]; cbn; [destruct (usable r); cbn|]; lia.
Qed.

Lemma overlay_events_returns dets : forall f v,
  fst (overlay_events ocr_predict cv2_draw f dets) = inr v ->
  exists results,
    length results = length dets
    /\ Forall2 (fun crop o => ocr_predict crop = inr o)
               (ocr_inputs (snd (overlay_events ocr_predict cv2_draw f dets))) results
    /\ draws_of (snd (overlay_events ocr_predict cv2_draw f dets)) = annotations dets results.
Proof.
  induction dets as [|d dets IH]; intros f v.
  - intros _. exists []. repeat split. constructor.
  - cbn [overlay_events].
    destruct (ocr_predict _) as [e|o] eqn:Hocr; cbn [fst snd]; [discriminate|].
    intros Hv. destruct (IH _ _ Hv) as (results & Hlen & Hres & Hdraws).
    exists (o :: results). split; [cbn; now rewrite Hlen|]. split.
    + rewrite ocr_inputs_app, ocr_inputs_step. constructor; [exact Hocr | exact Hres].
    + rewrite draws_of_app, Hdraws, draws_of_step. reflexivity.
Qed.


(** X6.  The drawing calls of a run of [draw_predictions] that returns:
    for each detection in turn its rectangle, followed at once by the
    black and then the white rendering of its text when its OCR result is
    usable; so one call for each detection and two more for each surviving
    one, and the frame holds the pixels these calls leave. *)
Theorem overlay_draws_in_detection_order frame w f dets v :
  store w !! frame = Some f ->
  detector_predict f = inr dets ->
  fst (draw_predictions detector_predict ocr_predict cv2_draw frame w) = inr v ->
  exists evs results,
    snd (draw_predictions detector_predict ocr_predict cv2_draw frame w)
    = after cv2_draw frame (EvDetect f :: evs) w
    /\ length results = length dets
    /\ Forall2 (fun crop o => ocr_predict crop = inr o) (ocr_inputs evs) results
    /\ draws_of evs = annotations dets results
    /\ length (draws_of evs) = (length dets + 2 * length (survivors results))%nat
    /\ store (snd (draw_predictions detector_predict ocr_predict cv2_draw frame w)) !! frame
       = Some (replay cv2_draw (annotations dets results) f).
Proof.
  intros Hf Hdet. rewrite (draw_predictions_run _ _ _ frame w f Hf), Hdet. cbn [fst snd].
  intros Hv.
  destruct (fst (overlay_events _ _ _ _)) as [e|[]] eqn:Hout; [discriminate|].
  destruct (overlay_events_returns _ _ _ Hout) as (results & Hlen & Hres & Hdraws).
  eexists. exists results. split; [reflexivity|]. split; [exact Hlen|].
  split; [exact Hres|]. split; [exact Hdraws|]. split.
  - rewrite Hdraws. now apply annotations_length.
  - rewrite (after_lookup cv2_draw frame _ w f Hf).
    change (draws_of (EvDetect f :: ?l)) with (draws_of l).
    now rewrite Hdraws.
Qed.


Lemma predict_loop_trace frame dets : forall acc w,
  exists rest,
    trace (snd (for_each (predict_step ocr_predict frame) dets acc w)) = trace w ++ rest.
Proof.
  induction dets as [|d dets IH]; intros acc w.
  - exists []. cbn. now rewrite app_nil_r.
  - cbn [for_each]. unfold bind. rewrite predict_step_run.
    destruct (ocr_predict _) as [e|o]; cbn [snd].
    + eexists. reflexivity.
    + destruct (IH (acc ++ map plate_text_of (survivors [o]))
                   (log (EvOcr (crop_of (store w !!! frame) d)) w)) as [rest Hrest].
      rewrite Hrest. cbn [log trace]. eexists. now rewrite <- app_assoc.
Qed.

(** X8.  The order of the two calls on one frame matters.  [predict]
    called after [draw_predictions] hands the detector the annotated
    frame; [draw_predictions] called after [predict] gives the outcome and
    leaves the store it gives when called alone. *)
Theorem overlay_then_predict_reads_annotated_frame frame w f :
  store w !! frame = Some f ->
  (exists evs rest,
     snd (draw_predictions detector_predict ocr_predict cv2_draw frame w)
     = after cv2_draw frame evs w
     /\ trace (snd (predict detector_predict ocr_predict frame
                      (snd (draw_predictions detector_predict ocr_predict cv2_draw
                                             frame w))))
        = (trace w ++ evs) ++ EvDetect (replay cv2_draw (draws_of evs) f) :: rest)
  /\ fst (draw_predictions detector_predict ocr_predict cv2_draw frame
            (snd (predict detector_predict ocr_predict frame w)))
     = fst (draw_predictions detector_predict ocr_predict cv2_draw frame w)
  /\ store (snd (draw_predictions detector_predict ocr_predict cv2_draw frame
                   (snd (predict detector_predict ocr_predict frame w))))
     = store (snd (draw_predictions detector_predict ocr_predict cv2_draw frame w)).
Proof.
  intros Hf. split; [|].
  - assert (Hw : exists evs,
               snd (draw_predictions detector_predict ocr_predict cv2_draw frame w)
               = after cv2_draw frame evs w).
    { rewrite (draw_predictions_run _ _ _ frame w f Hf).
      destruct (detector_predict f); eexists; reflexivity. }
    destruct Hw as [evs Hw]. exists evs. rewrite Hw.
    pose proof (after_lookup cv2_draw frame evs w f Hf) as Hf1.
    pose proof (lookup_total_correct _ _ _ Hf1) as Hf1'.
    unfold predict, bind, call_detector. rewrite Hf1'.
    destruct (detector_predict _) as [e|dets]; cbn [snd].
    + exists []. split; reflexivity.
    + destruct (predict_loop_trace frame dets []
                  (log (EvDetect (replay cv2_draw (draws_of evs) f))
                       (after cv2_draw frame evs w))) as [rest Hrest].
      exists rest. split; [reflexivity|].
      rewrite Hrest. cbn [log after trace]. now rewrite <- app_assoc.
  - assert (Hf0 : store (snd (predict detector_predict ocr_predict frame w)) !! frame = Some f).
    { now rewrite predict_store. }
    rewrite (draw_predictions_run _ _ _ frame _ f Hf0).
    rewrite (draw_predictions_run _ _ _ frame w f Hf).
    destruct (detector_predict f) as [e|dets]; cbn [fst snd]; unfold after; cbn [store];
      now rewrite predict_store.
Qed.

End MoreOverlayRuns.

(** ** What a crop holds *)

Lemma lookup_map {A B} (g : A -> B) (l : list A) : forall i : nat,
  map g l !! i = match l !! i with Some a => Some (g a) | None => None end.
Proof.
  induction l as [|a l IH]; intros [|i]; cbn; try reflexivity. apply IH.
Qed.

Lemma slice_lookup {A} (l : list A) (start stop : Z) (i : nat) :
  0 <= start -> 0 <= stop ->
  Np.slice l start stop !! i
  = if decide (Z.of_nat i < stop - start) then l !! (Z.to_nat start + i)%nat else None.
Proof.
  intros Hs He. unfold Np.slice, Np.adjust.
  destruct (Z.ltb_spec start 0) as [?|_]; [lia|].
  destruct (Z.ltb_spec stop 0) as [?|_]; [lia|].
  set (n := Z.of_nat (length l)).
  destruct (decide (Z.of_nat i < Z.min stop n - Z.min start n)) as [Hin|Hout].
  - rewrite lookup_take_lt by lia. rewrite lookup_drop.
    rewrite decide_True by lia. f_equal. lia.
  - rewrite lookup_take_ge by lia.
    destruct (decide (Z.of_nat i < stop - start)) as [Hbox|_]; [|reflexivity].
    symmetry. apply lookup_ge_None. subst n. lia.
Qed.

Lemma slice_length {A} (l : list A) (start stop : Z) :
  0 <= start -> 0 <= stop ->
  length (Np.slice l start stop)
  = Z.to_nat (Z.min stop (Z.of_nat (length l)) - Z.min start (Z.of_nat (length l))).
Proof.
  intros Hs He. unfold Np.slice, Np.adjust.
  destruct (Z.ltb_spec start 0) as [?|_]; [lia|].
  destruct (Z.ltb_spec stop 0) as [?|_]; [lia|].
  rewrite length_take, length_drop. lia.
Qed.

Lemma slice_rows {A} (P : A -> Prop) (l : list A) (start stop : Z) :
  Forall P l -> Forall P (Np.slice l start stop).
Proof. intros Hl. unfold Np.slice. now apply Forall_take, Forall_drop. Qed.

Lemma slice_from_far_edge {A} (l : list A) (start stop : Z) :
  - Z.of_nat (length l) <= start < 0 ->
  Np.slice l start stop = Np.slice l (start + Z.of_nat (length l)) stop.
Proof.
  intros Hs. unfold Np.slice, Np.adjust.
  destruct (Z.ltb_spec start 0) as [_|?]; [|lia].
  destruct (Z.ltb_spec (start + Z.of_nat (length l)) 0) as [?|_]; [lia|].
  replace (Z.min (start + Z.of_nat (length l)) (Z.of_nat (length l)))
    with (Z.max (start + Z.of_nat (length l)) 0) by lia.
  reflexivity.
Qed.

(** X9.  For a bounding box with non-negative coordinates, the pixel at row
    [i] and column [j] of the crop is the pixel of the frame at row
    [y1 + i] and column [x1 + j] when that lies inside the box and inside
    the frame, and there is no such pixel otherwise: the crop is cut at the
    edge of the frame and nothing is put in for what lies outside. *)
Theorem crop_holds_the_pixels_of_the_box (f : Frame) (d : Detection) (i j : nat) :
  0 <= x1 (bounding_box d) -> 0 <= y1 (bounding_box d) ->
  0 <= x2 (bounding_box d) -> 0 <= y2 (bounding_box d) ->
  Np.pixel (crop_of f d) i j
  = if decide (Z.of_nat i < y2 (bounding_box d) - y1 (bounding_box d)
               /\ Z.of_nat j < x2 (bounding_box d) - x1 (bounding_box d))
    then Np.pixel f (Z.to_nat (y1 (bounding_box d)) + i) (Z.to_nat (x1 (bounding_box d)) + j)
    else None.
Proof.
  intros Hx1 Hy1 Hx2 Hy2. unfold Np.pixel, crop_of, Np.getitem, Frame in *.
  rewrite lookup_map, slice_lookup by assumption.
  destruct (decide (Z.of_nat i < _)) as [Hi|Hi].
  - destruct (f !! (Z.to_nat (y1 (bounding_box d)) + i)%nat) as [row|].
    + cbv beta iota. rewrite slice_lookup by assumption.
      destruct (decide (Z.of_nat j < _)) as [Hj|Hj].
      * now rewrite decide_True by (split; assumption).
      * rewrite decide_False; [reflexivity | tauto].
    + now destruct (decide _).
  - rewrite decide_False; [reflexivity | tauto].
Qed.

(** X10.  On a frame of [H] rows of [W] pixels, the crop of a box with
    non-negative coordinates has as many rows as the box has inside the
    frame, and each row as many pixels: the box is clipped to the frame, a
    box inside the frame is cropped whole, a box outside it gives no pixel,
    and none of this raises. *)
Theorem crop_is_clipped_to_the_frame (f : Frame) (d : Detection) (H W : nat) :
  length f = H -> Forall (fun row => length row = W) f ->
  0 <= x1 (bounding_box d) -> 0 <= y1 (bounding_box d) ->
  0 <= x2 (bounding_box d) -> 0 <= y2 (bounding_box d) ->
  length (crop_of f d)
  = Z.to_nat (Z.min (y2 (bounding_box d)) (Z.of_nat H) - Z.min (y1 (bounding_box d)) (Z.of_nat H))
  /\ Forall (fun row =>
               length row
               = Z.to_nat (Z.min (x2 (bounding_box d)) (Z.of_nat W)
                           - Z.min (x1 (bounding_box d)) (Z.of_nat W)))
            (crop_of f d).
Proof.
  intros HH HW Hx1 Hy1 Hx2 Hy2. unfold crop_of, Np.getitem. split.
  - rewrite length_map, slice_length by assumption. now rewrite HH.
  - apply List.Forall_map.
    apply (slice_rows _ f (y1 (bounding_box d)) (y2 (bounding_box d))) in HW.
    revert HW. apply List.Forall_impl. intros row Hrow.
    rewrite slice_length by assumption. now rewrite Hrow.
Qed.

(** X11.  A negative coordinate is not brought to 0: it counts from the far
    edge of the frame.  On a frame of rows of [W] pixels, a box whose [x1]
    is negative is cropped as the box with [x1 + W] in its place; so when
    it overhangs the left edge and ends at or left of column [x1 + W], its
    crop has no pixel.  The same holds of [y1] and the number of rows. *)
Theorem negative_coordinate_counts_from_the_far_edge (f : Frame) (d : Detection) (W : nat) :
  Forall (fun row => length row = W) f ->
  (- Z.of_nat W <= x1 (bounding_box d) < 0 ->
   crop_of f d
   = crop_of f {| bounding_box :=
                    {| x1 := x1 (bounding_box d) + Z.of_nat W; y1 := y1 (bounding_box d);
                       x2 := x2 (bounding_box d); y2 := y2 (bounding_box d) |};
                  confidence := confidence d |})
  /\ (- Z.of_nat W <= x1 (bounding_box d) < 0 ->
      0 <= x2 (bounding_box d) <= x1 (bounding_box d) + Z.of_nat W ->
      Np.size (crop_of f d) = 0%nat)
  /\ (- Z.of_nat (length f) <= y1 (bounding_box d) < 0 ->
      crop_of f d
      = crop_of f {| bounding_box :=
                       {| x1 := x1 (bounding_box d);
                          y1 := y1 (bounding_box d) + Z.of_nat (length f);
                          x2 := x2 (bounding_box d); y2 := y2 (bounding_box d) |};
                     confidence := confidence d |}).
Proof.
  intros HW.
  assert (Hx : - Z.of_nat W <= x1 (bounding_box d) < 0 ->
               forall row, In row (Np.slice f (y1 (bounding_box d)) (y2 (bounding_box d))) ->
                 Np.slice row (x1 (bounding_box d)) (x2 (bounding_box d))
                 = Np.slice row (x1 (bounding_box d) + Z.of_nat W) (x2 (bounding_box d))).
  { intros Hneg row Hin.
    pose proof (slice_rows _ f (y1 (bounding_box d)) (y2 (bounding_box d)) HW) as Hrows.
    rewrite List.Forall_forall in Hrows. specialize (Hrows row Hin).
    rewrite <- Hrows. apply slice_from_far_edge. now rewrite Hrows. }
  split; [|split].
  - intros Hneg. unfold crop_of, Np.getitem. cbn [bounding_box x1 y1 x2 y2].
    apply map_ext_in. now apply Hx.
  - intros Hneg Hend. unfold crop_of, Np.getitem. apply size_no_columns.
    apply List.Forall_map, List.Forall_forall. intros row Hin.
    rewrite (Hx Hneg row Hin). apply slice_empty; lia.
  - intros Hneg. unfold crop_of, Np.getitem. cbn [bounding_box x1 y1 x2 y2].
    now rewrite slice_from_far_edge.
Qed.

(** ** The confidence figure *)



(** ** Construction *)

Section Construction.

Context {num Exn Providers SessionOptions : Type}.
Variable DefaultDetector_new :
  DefaultDetector.kwargs Providers SessionOptions -> Exn + @Alpr.Detector Exn.
Variable DefaultOCR_new :
  DefaultOCR.kwargs Providers SessionOptions -> Exn + @Alpr.Ocr num Exn.

(** X14.  Capabilities handed to the constructor are the ones the instance
    uses: no default is built, the eleven options play no part, no
    exception can arise, and [predict] on the instance recognises with the
    detector and the OCR that were given. *)
Theorem injected_capabilities_are_used_as_given
    (a : Alpr.Args) d o t frame w dets results :
  Alpr.detector a = Some d -> cap_truth d = true ->
  Alpr.ocr a = Some o -> cap_truth o = true ->
  cap_predict d (store w !!! frame) = inr dets ->
  Forall2 (fun d' r => cap_predict o (crop_of (store w !!! frame) d') = inr r)
          dets results ->
  exists self,
    Alpr.init DefaultDetector_new DefaultOCR_new a t = (inr self, t)
    /\ Alpr.self_detector self = d
    /\ Alpr.self_ocr self = o
    /\ fst (Alpr.predict_of self frame w) = inr (map plate_text_of (survivors results)).
Proof.
  intros Hd Htd Ho Hto Hdets Hres.
  exists {| Alpr.self_detector := d; Alpr.self_ocr := o |}.
  unfold Alpr.init, Alpr.or_make. rewrite Hd, Htd, Ho, Hto.
  repeat split. unfold Alpr.predict_of. cbn [Alpr.self_detector Alpr.self_ocr].
  now rewrite (predict_run _ _ frame w dets results Hdets Hres).
Qed.

(** X15.  A missing detector is built first, from the detector options
    alone.  When its constructor raises, the exception comes out and the
    OCR constructor is not called; when it returns, a missing OCR is built
    next from the OCR options alone, and an OCR that was given is kept. *)
Theorem defaults_are_built_detector_first (a : Alpr.Args) t :
  Alpr.absent (Alpr.detector a) = true ->
  (forall e,
     DefaultDetector_new (Alpr.detector_kwargs a) = inl e ->
     Alpr.init DefaultDetector_new DefaultOCR_new a t
     = (inl e, t ++ [Alpr.NewDetector (Alpr.detector_kwargs a)]))
  /\ (forall det,
        DefaultDetector_new (Alpr.detector_kwargs a) = inr det ->
        Alpr.absent (Alpr.ocr a) = true ->
        Alpr.init DefaultDetector_new DefaultOCR_new a t
        = (match DefaultOCR_new (Alpr.ocr_kwargs a) with
           | inl e => inl e
           | inr o => inr {| Alpr.self_detector := det; Alpr.self_ocr := o |}
           end,
           t ++ [Alpr.NewDetector (Alpr.detector_kwargs a);
                 Alpr.NewOCR (Alpr.ocr_kwargs a)]))
  /\ (forall det o,
        DefaultDetector_new (Alpr.detector_kwargs a) = inr det ->
        Alpr.ocr a = Some o -> cap_truth o = true ->
        Alpr.init DefaultDetector_new DefaultOCR_new a t
        = (inr {| Alpr.self_detector := det; Alpr.self_ocr := o |},
           t ++ [Alpr.NewDetector (Alpr.detector_kwargs a)])).
Proof.
  intros Habs.
  assert (Hdet : Alpr.or_make cap_truth (Alpr.detector a)
                   (Alpr.new_detector DefaultDetector_new (Alpr.detector_kwargs a)) t
                 = (DefaultDetector_new (Alpr.detector_kwargs a),
                    t ++ [Alpr.NewDetector (Alpr.detector_kwargs a)])).
  { unfold Alpr.or_make, Alpr.absent in *. destruct (Alpr.detector a) as [c|]; [|reflexivity].
    destruct (cap_truth c); [discriminate | reflexivity]. }
  split; [|split].
  - intros e He. unfold Alpr.init. now rewrite Hdet, He.
  - intros det Hnew Hocr. unfold Alpr.init. rewrite Hdet, Hnew.
    unfold Alpr.or_make, Alpr.absent, Alpr.new_ocr in *.
    destruct (Alpr.ocr a) as [c|].
    + destruct (cap_truth c); [discriminate|].
      rewrite <- app_assoc. now destruct (DefaultOCR_new _).
    + rewrite <- app_assoc. now destruct (DefaultOCR_new _).
  - intros det o Hnew Ho Hto. unfold Alpr.init. rewrite Hdet, Hnew.
    unfold Alpr.or_make. now rewrite Ho, Hto.
Qed.

(** X16.  The constructor raises only what the constructor of a default it
    had to build raised, and it calls such a constructor only for a
    capability that was not given, with the options of that capability. *)
Theorem init_raises_only_what_a_default_raised (a : Alpr.Args) t e :
  fst (Alpr.init DefaultDetector_new DefaultOCR_new a t) = inl e ->
  ((Alpr.absent (Alpr.detector a) = true
    /\ DefaultDetector_new (Alpr.detector_kwargs a) = inl e)
   \/ (Alpr.absent (Alpr.ocr a) = true
       /\ DefaultOCR_new (Alpr.ocr_kwargs a) = inl e))
  /\ exists built,
       snd (Alpr.init DefaultDetector_new DefaultOCR_new a t) = t ++ built
       /\ (forall k, In (Alpr.NewDetector k) built ->
             Alpr.absent (Alpr.detector a) = true /\ k = Alpr.detector_kwargs a)
       /\ (forall k, In (Alpr.NewOCR k) built ->
             Alpr.absent (Alpr.ocr a) = true /\ k = Alpr.ocr_kwargs a).
Proof.
  unfold Alpr.init, Alpr.or_make, Alpr.absent, Alpr.new_detector, Alpr.new_ocr.
  destruct (Alpr.detector a) as [d|]; [destruct (cap_truth d)|];
    destruct (Alpr.ocr a) as [o|]; try destruct (cap_truth o);
    try destruct (DefaultDetector_new _) as [e1|det] eqn:H1;
    try destruct (DefaultOCR_new _) as [e2|oc] eqn:H2;
    cbn [fst snd negb]; intros He; try discriminate; injection He as <-;
    (split; [tauto|]);
    rewrite <- ?app_assoc;
    first [ exists [Alpr.NewDetector (Alpr.detector_kwargs a);
                    Alpr.NewOCR (Alpr.ocr_kwargs a)]; split; [reflexivity|]
          | exists [Alpr.NewDetector (Alpr.detector_kwargs a)]; split; [reflexivity|]
          | exists [Alpr.NewOCR (Alpr.ocr_kwargs a)]; split; [reflexivity|] ];
    split; intros k Hin; cbn in Hin;
    repeat match goal with
           | H : _ \/ _ |- _ => destruct H
           | H : False |- _ => destruct H
           | H : Alpr.NewDetector _ = Alpr.NewDetector _ |- _ => injection H as <-
           | H : Alpr.NewOCR _ = Alpr.NewOCR _ |- _ => injection H as <-
           | H : Alpr.NewDetector _ = Alpr.NewOCR _ |- _ => discriminate H
           | H : Alpr.NewOCR _ = Alpr.NewDetector _ |- _ => discriminate H
           end; split; reflexivity.
Qed.

End Construction.

(** *** Concrete runs of the further properties *)

Lemma predict_reads_detections_independently_witness :
  let a := [detection 10 10 50 40] in
  let b := [detection 5 5 5 9; detection 20 30 60 50] in
  let w := world_of street in
  (forall plates_a plates_b,
     fst (predict (finds a) street_ocr frame_ref w) = inr plates_a ->
     fst (predict (finds b) street_ocr frame_ref w) = inr plates_b ->
     fst (predict (finds street_detections) street_ocr frame_ref w)
     = inr (plates_a ++ plates_b))
  /\ (forall e,
        fst (predict (finds a) street_ocr frame_ref w) = inl e ->
        fst (predict (finds street_detections) street_ocr frame_ref w) = inl e)
  /\ (forall plates_a e,
        fst (predict (finds a) street_ocr frame_ref w) = inr plates_a ->
        fst (predict (finds b) street_ocr frame_ref w) = inl e ->
        fst (predict (finds street_detections) street_ocr frame_ref w) = inl e).
Proof.
  intros a b w.
  apply (predict_reads_detections_independently street_ocr (finds a) (finds b)
           (finds street_detections) frame_ref w a b); reflexivity.
Defined.

Lemma predict_stops_at_first_failure_witness :
  let w := world_of street in
  let ocr := raises_on_empty (Some ab12) in
  exists done d todo,
    street_detections = done ++ d :: todo
    /\ Forall (fun d' => exists o, ocr (crop_of (store w !!! frame_ref) d') = inr o) done
    /\ ocr (crop_of (store w !!! frame_ref) d) = inl "empty input"
    /\ snd (predict (finds street_detections) ocr frame_ref w)
       = {| store := store w;
            trace := trace w ++ EvDetect (store w !!! frame_ref)
                       :: map EvOcr (map (crop_of (store w !!! frame_ref)) (done ++ [d])) |}.
Proof.
  intros w ocr.
  apply (predict_stops_at_first_failure ocr (finds street_detections) frame_ref w
           street_detections "empty input").
  - reflexivity.
  - vm_compute. reflexivity.
Defined.

Lemma all_padding_text_gives_empty_plate_witness :
  let d := detection 10 10 50 40 in
  usable blank_plate = true
  /\ plate_text_of blank_plate = ""
  /\ fst (predict_step (reads (Some blank_plate)) frame_ref ["AB12"] d (world_of street))
     = inr (["AB12"] ++ [""]).
Proof.
  intros d.
  apply (all_padding_text_gives_empty_plate (reads (Some blank_plate)) frame_ref ["AB12"] d
           (world_of street) blank_plate "___" "_"%char).
  - reflexivity.
  - discriminate.
  - repeat constructor.
  - reflexivity.
  - discriminate.
  - reflexivity.
Defined.

Lemma plate_text_length_witness :
  (String.length (plate_text_of xy9) <= String.length "_XY__9")%nat
  /\ (forall c, padding_symbol xy9 = Some (String c "") ->
        (String.length (plate_text_of xy9)
         + count_occ ascii_dec (list_ascii_of_string "_XY__9") c
         = String.length "_XY__9")%nat).
Proof. apply (plate_text_length xy9 "_XY__9"). reflexivity. Defined.

Lemma plate_text_idempotent_witness : plate_text_of xy9_clean = plate_text_of xy9.
Proof.
  apply (plate_text_idempotent xy9 xy9_clean).
  - right. right. exists "_"%char. reflexivity.
  - reflexivity.
  - reflexivity.
Defined.

Lemma overlay_draws_in_detection_order_witness :
  let w := world_of street in
  let detector := finds street_detections in
  exists evs results,
    snd (draw_predictions detector street_ocr Canvas.draw frame_ref w)
    = after Canvas.draw frame_ref (EvDetect street :: evs) w
    /\ length results = length street_detections
    /\ Forall2 (fun crop o => street_ocr crop = inr o) (ocr_inputs evs) results
    /\ draws_of evs = annotations street_detections results
    /\ length (draws_of evs)
       = (length street_detections + 2 * length (survivors results))%nat
    /\ store (snd (draw_predictions detector street_ocr Canvas.draw frame_ref w)) !! frame_ref
       = Some (replay Canvas.draw (annotations street_detections results) street).
Proof.
  intros w detector.
  apply (overlay_draws_in_detection_order detector street_ocr Canvas.draw frame_ref w
           street street_detections frame_ref).
  - reflexivity.
  - reflexivity.
  - vm_compute. reflexivity.
Defined.


Lemma overlay_then_predict_reads_annotated_frame_witness :
  let w := world_of street in
  let detector := finds street_detections in
  (exists evs rest,
     snd (draw_predictions detector street_ocr Canvas.draw frame_ref w)
     = after Canvas.draw frame_ref evs w
     /\ trace (snd (predict detector street_ocr frame_ref
                      (snd (draw_predictions detector street_ocr Canvas.draw frame_ref w))))
        = (trace w ++ evs) ++ EvDetect (replay Canvas.draw (draws_of evs) street) :: rest)
  /\ fst (draw_predictions detector street_ocr Canvas.draw frame_ref
            (snd (predict detector street_ocr frame_ref w)))
     = fst (draw_predictions detector street_ocr Canvas.draw frame_ref w)
  /\ store (snd (draw_predictions detector street_ocr Canvas.draw frame_ref
                   (snd (predict detector street_ocr frame_ref w))))
     = store (snd (draw_predictions detector street_ocr Canvas.draw frame_ref w)).
Proof.
  intros w detector.
  apply (overlay_then_predict_reads_annotated_frame detector street_ocr Canvas.draw
           frame_ref w street).
  reflexivity.
Defined.

Lemma crop_holds_the_pixels_of_the_box_witness :
  Np.pixel (crop_of grid (detection 2 1 7 4)) 2 3 = Np.pixel grid (1 + 2) (2 + 3)
  /\ Np.pixel (crop_of grid (detection 2 1 7 4)) 2 3 = Some (5, 3, 0).
Proof.
  split; [|reflexivity].
  apply (crop_holds_the_pixels_of_the_box grid (detection 2 1 7 4) 2 3); cbn; lia.
Defined.

Lemma crop_is_clipped_to_the_frame_witness :
  let d := detection 5 4 12 9 in
  length (crop_of grid d) = Z.to_nat (Z.min 9 6 - Z.min 4 6)
  /\ Forall (fun row => length row = Z.to_nat (Z.min 12 8 - Z.min 5 8)) (crop_of grid d).
Proof.
  intros d.
  apply (crop_is_clipped_to_the_frame grid d 6 8); cbn; try lia; try reflexivity.
  repeat constructor.
Defined.

Lemma negative_coordinate_counts_from_the_far_edge_witness :
  let d := detection (-1) (-2) 5 6 in
  (- 8 <= -1 < 0 -> crop_of grid d = crop_of grid (detection 7 (-2) 5 6))
  /\ (- 8 <= -1 < 0 -> 0 <= 5 <= 7 -> Np.size (crop_of grid d) = 0%nat)
  /\ (- 6 <= -2 < 0 -> crop_of grid d = crop_of grid (detection (-1) 4 5 6)).
Proof.
  intros d.
  apply (negative_coordinate_counts_from_the_far_edge grid d 8).
  repeat constructor.
Defined.

Lemma overlay_agrees_when_ocr_unaffected_witness :
  let w := world_of street in
  let detector := finds street_detections in
  let ocr := reads (Some ab_12) in
  let results := [Some ab_12; Some ab_12; Some ab_12] in
  fst (predict detector ocr frame_ref w) = inr (map plate_text_of (survivors results))
  /\ fst (draw_predictions detector ocr Canvas.draw frame_ref w) = inr frame_ref
  /\ overlay_texts (trace (snd (draw_predictions detector ocr Canvas.draw frame_ref w)))
     = overlay_texts (trace w) ++ map display_text_of (survivors results).
Proof.
  intros w detector ocr results.
  apply (overlay_agrees_when_ocr_unaffected detector ocr Canvas.draw frame_ref w street
           street_detections results).
  - reflexivity.
  - reflexivity.
  - reflexivity.
  - repeat constructor.
Defined.


Lemma injected_capabilities_are_used_as_given_witness :
  exists self,
    Alpr.init offline_detector offline_ocr injected [] = (inr self, [])
    /\ Alpr.self_detector self = street_detector
    /\ Alpr.self_ocr self = street_reader
    /\ fst (Alpr.predict_of self frame_ref (world_of street))
       = inr (map plate_text_of (survivors street_results)).
Proof.
  apply (injected_capabilities_are_used_as_given offline_detector offline_ocr injected
           street_detector street_reader [] frame_ref (world_of street)
           street_detections street_results); try reflexivity.
  repeat constructor.
Defined.

Lemma defaults_are_built_detector_first_witness :
  let a : @Alpr.Args Q string unit unit := Alpr.defaults in
  (forall e,
     offline_detector (Alpr.detector_kwargs a) = inl e ->
     Alpr.init offline_detector stock_ocr a []
     = (inl e, [] ++ [Alpr.NewDetector (Alpr.detector_kwargs a)]))
  /\ (forall det,
        offline_detector (Alpr.detector_kwargs a) = inr det ->
        Alpr.absent (Alpr.ocr a) = true ->
        Alpr.init offline_detector stock_ocr a []
        = (match stock_ocr (Alpr.ocr_kwargs a) with
           | inl e => inl e
           | inr o => inr {| Alpr.self_detector := det; Alpr.self_ocr := o |}
           end,
           [] ++ [Alpr.NewDetector (Alpr.detector_kwargs a);
                  Alpr.NewOCR (Alpr.ocr_kwargs a)]))
  /\ (forall det o,
        offline_detector (Alpr.detector_kwargs a) = inr det ->
        Alpr.ocr a = Some o -> cap_truth o = true ->
        Alpr.init offline_detector stock_ocr a []
        = (inr {| Alpr.self_detector := det; Alpr.self_ocr := o |},
           [] ++ [Alpr.NewDetector (Alpr.detector_kwargs a)])).
Proof.
  intros a.
  apply (defaults_are_built_detector_first offline_detector stock_ocr a []).
  reflexivity.
Defined.

Lemma init_raises_only_what_a_default_raised_witness :
  let a : @Alpr.Args Q string unit unit := Alpr.defaults in
  let e := "cannot download the OCR model" in
  ((Alpr.absent (Alpr.detector a) = true
    /\ stock_detector (Alpr.detector_kwargs a) = inl e)
   \/ (Alpr.absent (Alpr.ocr a) = true /\ offline_ocr (Alpr.ocr_kwargs a) = inl e))
  /\ exists built,
       snd (Alpr.init stock_detector offline_ocr a []) = [] ++ built
       /\ (forall k, In (Alpr.NewDetector k) built ->
             Alpr.absent (Alpr.detector a) = true /\ k = Alpr.detector_kwargs a)
       /\ (forall k, In (Alpr.NewOCR k) built ->
             Alpr.absent (Alpr.ocr a) = true /\ k = Alpr.ocr_kwargs a).
Proof.
  intros a e.
  apply (init_raises_only_what_a_default_raised stock_detector offline_ocr a [] e).
  reflexivity.
Defined.

(** *** Construction, on the defaults *)

Example construction_with_defaults :
  let a : @Alpr.Args Q string unit unit := Alpr.defaults in
  snd (Alpr.init stock_detector stock_ocr a [])
  = [ Alpr.NewDetector
        {| DefaultDetector.model_name := "yolo-v9-t-384-license-plate-end2end";
           DefaultDetector.conf_thresh := (4 # 10)%Q;
           DefaultDetector.providers := None;
           DefaultDetector.sess_options := None |};
      Alpr.NewOCR
        {| DefaultOCR.hub_ocr_model := Some "european-plates-mobile-vit-v2-model";
           DefaultOCR.device := auto;
           DefaultOCR.providers := None;
           DefaultOCR.sess_options := None;
           DefaultOCR.model_path := None;
           DefaultOCR.config_path := None;
           DefaultOCR.force_download := false |} ]
  /\ fst (Alpr.init offline_detector stock_ocr a [])
     = inl "cannot download yolo-v9-t-384-license-plate-end2end".
Proof. split; reflexivity. Qed.

Example construction_replaces_a_false_object :
  let a : @Alpr.Args Q string unit unit :=
    {| Alpr.detector := Some empty_detector;
       Alpr.ocr := Some street_reader;
       Alpr.detector_model := "plates";
       Alpr.detector_conf_thresh := (1 # 2)%Q;
       Alpr.detector_providers := None;
       Alpr.detector_sess_options := None;
       Alpr.ocr_hub_ocr_model := None;
       Alpr.ocr_device := cpu;
       Alpr.ocr_providers := None;
       Alpr.ocr_sess_options := None;
       Alpr.ocr_model_path := None;
       Alpr.ocr_config_path := None;
       Alpr.ocr_force_download := false |} in
  fst (Alpr.init stock_detector stock_ocr a [])
  = inr {| Alpr.self_detector := street_detector; Alpr.self_ocr := street_reader |}.
Proof. reflexivity. Qed.
